(** * skyview-timelapse: the capture-session controller of [skyview.py]

    A shallow embedding of [src/skyview.py] and the properties of its
    duration parser, browser acquisition, viewport calibration and capture
    loop.

    Conventions of the embedding:
    - Python [int] is [Z] (arbitrary precision);
    - a Python [str] is a [string] whose characters are the code points
      0..255; in that range the regular-expression class [\d] is exactly
      the ten characters '0'..'9'.  The duration parser is embedded a
      second time on [text], the strings of any code points, where [\d]
      and [int] follow the table of the decimal digits of Unicode; the two
      embeddings agree on the strings of the first
      ([time2seconds_text_codes]);
    - an exception is a value of [exn], and a computation that may raise
      returns a [result];
    - calls into the outside world (selenium, the file system, the clock,
      the console) are recorded in a chronological trace of [call]s, and an
      environment [env] decides which of them raise and what they return. *)

From Stdlib Require Import ZArith List String Ascii Bool Lia.
From Stdlib.Strings Require Import Byte.
From Stdlib.Floats Require SpecFloat.
Import ListNotations.
Open Scope Z_scope.

(** ** Exceptions and results *)

(** The exception classes that the program raises, catches or lets through.
    [WebDriverException] carries the name of the concrete selenium subclass;
    [OtherError] stands for every class that is none of the others and is
    not a subclass of [IndexError] or [WebDriverException]. *)
Inductive exn : Type :=
| KeyError (key : string)
| IndexError
| LookupError (msg : string)
| ValueError (msg : string)
| TypeError
| ZeroDivisionError
| OverflowError
| StructError
| FileExistsError (path : string)
| WebDriverException (cls : string)
| OtherError (cls : string).

(** [isinstance(e, LookupError)]: [KeyError] and [IndexError] are the two
    builtin subclasses of [LookupError]. *)
Definition is_LookupError (e : exn) : bool :=
  match e with
  | KeyError _ | IndexError | LookupError _ => true
  | _ => false
  end.

Definition is_IndexError (e : exn) : bool :=
  match e with IndexError => true | _ => false end.

Definition is_WebDriverException (e : exn) : bool :=
  match e with WebDriverException _ => true | _ => false end.

Inductive result (A : Type) : Type :=
| Ok (a : A)
| Raise (e : exn).
Arguments Ok {A} a.
Arguments Raise {A} e.

(** ** Decimal text: [str], [int] and the format [0<width>d] *)

Definition is_digit (c : ascii) : bool :=
  ((48 <=? nat_of_ascii c) && (nat_of_ascii c <=? 57))%nat.

Definition digit_value (c : ascii) : Z := Z.of_nat (nat_of_ascii c) - 48.

Definition digit_char (d : Z) : ascii := ascii_of_nat (Z.to_nat (48 + d)).

(** The value of a run of decimal digits, most significant first. *)
Fixpoint digits_value_from (acc : Z) (s : string) : Z :=
  match s with
  | EmptyString => acc
  | String c s' => digits_value_from (10 * acc + digit_value c) s'
  end.

Definition digits_value (s : string) : Z := digits_value_from 0 s.

Fixpoint all_digits (s : string) : bool :=
  match s with
  | EmptyString => true
  | String c s' => is_digit c && all_digits s'
  end.

(** [int(s)] on a non-empty run of digits.  CPython refuses a run longer
    than [sys.get_int_max_str_digits()] with a [ValueError] when that limit
    is non-zero (4300 by default since 3.11; 0 switches the check off). *)
Definition py_int (int_max_str_digits : nat) (s : string) : result Z :=
  if ((0 <? int_max_str_digits) && (int_max_str_digits <? String.length s))%nat
  then Raise (ValueError "Exceeds the limit for integer string conversion")
  else Ok (digits_value s).

(** [str(n)] for [0 <= n]; [fuel] bounds the number of digits. *)
Fixpoint str_nonneg_fuel (fuel : nat) (n : Z) : string :=
  match fuel with
  | O => EmptyString
  | S f =>
      if n <? 10 then String (digit_char n) EmptyString
      else (str_nonneg_fuel f (n / 10) ++ String (digit_char (n mod 10)) EmptyString)%string
  end.

Definition str_nonneg (n : Z) : string :=
  str_nonneg_fuel (S (Z.to_nat (Z.log2 n))) n.

(** [str(n)] for any integer. *)
Definition py_str (n : Z) : string :=
  if n <? 0 then String "-" (str_nonneg (- n)) else str_nonneg n.

Fixpoint zeros (k : nat) : string :=
  match k with
  | O => EmptyString
  | S k' => String "0" (zeros k')
  end.

(** [format(i, '0<width>d')]: zero fill between the sign and the digits up
    to the minimum width. *)
Definition format_0d (width : Z) (i : Z) : string :=
  let body := str_nonneg (Z.abs i) in
  let sign := if i <? 0 then String "-" EmptyString else EmptyString in
  let used := (String.length sign + String.length body)%nat in
  (sign ++ zeros (Z.to_nat width - used) ++ body)%string.

(** [','.join(map(str, xs))] *)
Fixpoint join_comma (xs : list string) : string :=
  match xs with
  | [] => EmptyString
  | [x] => x
  | x :: rest => (x ++ "," ++ join_comma rest)%string
  end.

(** ** DurationResolver: [time2seconds] *)

(** The greedy [\d+]: the longest prefix of digits and what follows it. *)
Fixpoint span_digits (s : string) : string * string :=
  match s with
  | EmptyString => (EmptyString, EmptyString)
  | String c s' =>
      if is_digit c then
        let (ds, rest) := span_digits s' in (String c ds, rest)
      else (EmptyString, s)
  end.

Definition is_unit (c : ascii) : bool :=
  (c =? "m")%char || (c =? "h")%char || (c =? "s")%char.

(** [re.match(r'^(\d+)([mhs])$', s)]: the two groups, or [None].  After the
    digits exactly one unit character must follow; [$] matches at the end
    of the string and also just before a final newline. *)
Definition re_match_duration (s : string) : option (string * ascii) :=
  match span_digits s with
  | (EmptyString, _) => None
  | (ds, String u EmptyString) =>
      if is_unit u then Some (ds, u) else None
  | (ds, String u (String nl EmptyString)) =>
      if is_unit u && (nl =? "010")%char then Some (ds, u) else None
  | _ => None
  end.

Definition invalid_time_format : exn := ValueError "Invalid time format".

(** [time2seconds(s)].  Every exception of the [try] block (the
    [AttributeError] of [None.group], a [ValueError] of [int]) is replaced
    by [ValueError('Invalid time format')]. *)
Definition time2seconds (int_max_str_digits : nat) (s : string) : result Z :=
  match re_match_duration s with
  | None => Raise invalid_time_format
  | Some (ds, unit) =>
      match py_int int_max_str_digits ds with
      | Raise _ => Raise invalid_time_format
      | Ok number =>
          if (unit =? "h")%char then Ok (number * 3600)
          else if (unit =? "m")%char then Ok (number * 60)
          else Ok number
      end
  end.

(** ** True division of integers and [int] of a float *)

(** A finite binary64 value: [(-1)^sign * mant * 2^expo] with [0 <= mant]. *)
Record float64 : Type := MkFloat { fsign : bool; mant : Z; expo : Z }.

(** The nearest integer to [a / b] for [0 <= a] and [0 < b], ties going to
    the even one. *)
Definition round_half_even (a b : Z) : Z :=
  let q := a / b in
  let r := a mod b in
  if 2 * r <? b then q
  else if b <? 2 * r then q + 1
  else if Z.even q then q else q + 1.

(** Numerator and denominator of [a / (b * 2^s)] as integers. *)
Definition scale_num (a s : Z) : Z := if s <? 0 then a * 2 ^ (- s) else a.
Definition scale_den (b s : Z) : Z := if s <? 0 then b else b * 2 ^ s.

(** [floor (log2 (a / b))] for [0 < a] and [0 < b]. *)
Definition quotient_exponent (a b : Z) : Z :=
  let e0 := Z.log2 a - Z.log2 b in
  if scale_num a e0 <? scale_den b e0 then e0 - 1 else e0.

(** [a / b] on two integers: the binary64 value nearest to the exact
    quotient (53 significant bits, least exponent -1074, ties to even);
    [ZeroDivisionError] for [b = 0] and [OverflowError] when the rounded
    quotient reaches [2^1024]. *)
Definition py_truediv (a b : Z) : result float64 :=
  if b =? 0 then Raise ZeroDivisionError
  else
    let sign := xorb (a <? 0) (b <? 0) in
    if a =? 0 then Ok (MkFloat sign 0 0)
    else
      let e := quotient_exponent (Z.abs a) (Z.abs b) in
      let s := Z.max (e - 52) (-1074) in
      let m := round_half_even (scale_num (Z.abs a) s) (scale_den (Z.abs b) s) in
      if scale_den 1 1024 * scale_den 1 (- s) <=? scale_num m (- s)
      then Raise OverflowError
      else Ok (MkFloat sign m s).

(** [int(x)] on a finite float: truncation toward zero. *)
Definition py_int_of_float (x : float64) : Z :=
  let magnitude := scale_num (mant x) (- expo x) / scale_den 1 (- expo x) in
  if fsign x then - magnitude else magnitude.

(** ** The outside world: calls, traces and environments *)

(** [BROWSERS]: for each kind the driver, service and options classes, in
    the order of the dict literal (which is the order Python iterates it). *)
Record capability : Type :=
  MkCapability { driverclass : string; serviceclass : string; optionsclass : string }.

Definition BROWSERS : list (string * capability) :=
  [ ("chrome"%string,
      MkCapability "webdriver.Chrome" "webdriver.ChromeService" "webdriver.ChromeOptions");
    ("firefox"%string,
      MkCapability "webdriver.Firefox" "webdriver.FirefoxService" "webdriver.FirefoxOptions");
    ("edge"%string,
      MkCapability "webdriver.Edge" "webdriver.EdgeService" "webdriver.EdgeOptions");
    ("safari"%string,
      MkCapability "webdriver.Safari" "webdriver.SafariService" "webdriver.SafariOptions") ].

Definition CAMERAS : list string :=
  [ "teletorn"; "kohtlanomme"; String "p" (String "228" "rnu"); "tartu";
    "orissaare"; "valgjarve" ]%string.

(** A running browser, named by the driver class that was instantiated. *)
Record driver : Type := MkDriver { driver_class : string }.

(** A page element, by the way it was found. *)
Inductive element : Type :=
| ById (id : string)
| ByCssIn (parent : element) (selector : string).

(** One call that leaves the program.  [Launch] is the construction of the
    options object with its two arguments, of the service with its
    executable path and of the driver from both. *)
Inductive call : Type :=
| Launch (cap : capability) (arguments : list string) (executable_path : option string)
| Get (url : string)
| Sleep (secs : Z)
| FindElement (e : element)
| Click (e : element)
| ExecuteScript (script : string) (e : element)
| ActionChains
| MoveToElement (e : element)
| TemporaryDirectory
| CleanupTemporaryDirectory (name : string)
| Screenshot (e : element) (path : string)
| OpenRead (path : string)
| Read (n : Z)
| CloseFile (path : string)
| Print (line : string)
| SetWindowSize (w h : Z)
| Mkdir (path : string)
| Quit (d : driver).

Definition trace : Type := list call.

(** What the program cannot decide: which calls raise (given everything
    that was called before), the name of the scratch directory, the bytes
    found in the measurement screenshot, the formatted UTC start time and
    the directories that exist when the run starts. *)
Record env : Type := MkEnv {
  raises : trace -> call -> option exn;
  tmpdir_name : string;
  sizetest_bytes : list byte;
  now_stamp : string;
  dir_exists : string -> bool
}.

(** A computation reads the calls made so far and returns the calls it made
    itself, in order, with its value or the exception that ended it. *)
Definition M (A : Type) : Type := trace -> trace * result A.

Definition ret {A : Type} (a : A) : M A := fun _ => ([], Ok a).

Definition raise {A : Type} (e : exn) : M A := fun _ => ([], Raise e).

(** A computation that makes no call. *)
Definition lift {A : Type} (r : result A) : M A := fun _ => ([], r).

Definition bind {A B : Type} (m : M A) (f : A -> M B) : M B :=
  fun h =>
    let (t1, r1) := m h in
    match r1 with
    | Raise e => (t1, Raise e)
    | Ok a => let (t2, r2) := f a (h ++ t1) in (t1 ++ t2, r2)
    end.

Declare Scope py_scope.
Delimit Scope py_scope with py.
Notation "x <- m ;; k" := (bind m (fun x => k))
  (at level 100, m at next level, right associativity) : py_scope.
Notation "m ;; k" := (bind m (fun _ => k))
  (at level 100, right associativity) : py_scope.
Open Scope py_scope.

(** [try: body finally: cleanup], also the exit of a [with] block: the
    cleanup runs however the body ended, and an exception of the cleanup
    replaces the outcome of the body. *)
Definition try_finally {A : Type} (body : M A) (cleanup : M unit) : M A :=
  fun h =>
    let (t1, r1) := body h in
    let (t2, r2) := cleanup (h ++ t1) in
    (t1 ++ t2, match r2 with Raise e => Raise e | Ok _ => r1 end).

(** [try: body except ...: handler]: [handler e] is [None] when no clause
    matches [e]. *)
Definition try_except {A : Type} (body : M A) (handler : exn -> option (M A)) : M A :=
  fun h =>
    let (t1, r1) := body h in
    match r1 with
    | Ok a => (t1, Ok a)
    | Raise e =>
        match handler e with
        | None => (t1, Raise e)
        | Some k => let (t2, r2) := k (h ++ t1) in (t1 ++ t2, r2)
        end
    end.

Fixpoint for_each {A : Type} (xs : list A) (body : A -> M unit) : M unit :=
  match xs with
  | [] => ret tt
  | x :: rest => body x ;; for_each rest body
  end.

(** [range(n)] *)
Definition py_range (n : Z) : list Z := map Z.of_nat (seq 0 (Z.to_nat n)).

Section Program.

Variable E : env.

(** An outside call: recorded, then it raises or returns as [E] says. *)
Definition do_call (c : call) : M unit :=
  fun h => ([c], match raises E h c with Some e => Raise e | None => Ok tt end).

(** The most seconds whose nanoseconds fit the signed 64-bit integer that
    [time.sleep] converts its argument to. *)
Definition sleep_max : Z := 9223372036.

(** [time.sleep(secs)] on an integer: the length is first converted to
    nanoseconds, which is an [OverflowError] outside of
    [-sleep_max .. sleep_max]; then a negative length is refused; in both
    cases before any pause. *)
Definition sleep (secs : Z) : M unit :=
  if (secs <? - sleep_max) || (sleep_max <? secs) then raise OverflowError
  else if secs <? 0 then raise (ValueError "sleep length must be non-negative")
  else do_call (Sleep secs).

(** [path.mkdir(exist_ok=False)] *)
Definition mkdir (path : string) : M unit :=
  fun h =>
    ([Mkdir path],
     if dir_exists E path then Raise (FileExistsError path)
     else match raises E h (Mkdir path) with Some e => Raise e | None => Ok tt end).

(** [str(pathlib.Path(dir) / name)] for a [dir] that pathlib leaves as it
    is (no separator or dot component to normalise), POSIX flavour. *)
Definition path_join (dir name : string) : string := (dir ++ "/" ++ name)%string.

(** ** BrowserAcquirer: [create_driver] and [choose_driver] *)

Fixpoint dict_get {V : Type} (d : list (string * V)) (key : string) : option V :=
  match d with
  | [] => None
  | (k, v) :: rest => if (k =? key)%string then Some v else dict_get rest key
  end.

(** [BROWSERS[browser]] *)
Definition browsers_item (browser : string) : M capability :=
  match dict_get BROWSERS browser with
  | Some cap => ret cap
  | None => raise (KeyError browser)
  end.

Definition launch (cap : capability) (arguments : list string)
    (executable_path : option string) : M driver :=
  do_call (Launch cap arguments executable_path) ;;
  ret (MkDriver (driverclass cap)).

(** Lines 35-37: the two arguments given to the options object. *)
Definition launch_arguments (window_size : Z * Z) : list string :=
  let size_str := join_comma [py_str (fst window_size); py_str (snd window_size)] in
  ["--headless"; "--window-size=" ++ size_str]%string.

Definition create_driver (browser : string) (window_size : Z * Z)
    (driver_path : option string) : M driver :=
  try_except
    (cap <- browsers_item browser ;;
     launch cap (launch_arguments window_size) driver_path)
    (fun e =>
       if is_IndexError e
       then Some (raise (LookupError ("No browser found: " ++ browser)))
       else None).

(** The loop of [choose_driver] over the kinds still to try;
    [contextlib.suppress(WebDriverException)] swallows that class and its
    subclasses only. *)
Fixpoint choose_among (kinds : list string) (window_size : Z * Z) : M driver :=
  match kinds with
  | [] => raise (LookupError "No supported browser found")
  | browser :: rest =>
      try_except (create_driver browser window_size None)
        (fun e =>
           if is_WebDriverException e
           then Some (choose_among rest window_size)
           else None)
  end.

Definition choose_driver (window_size : Z * Z) : M driver :=
  choose_among (map fst BROWSERS) window_size.

(** ** ViewportCalibrator: the calibration block of the main program *)

Definition byte_value (b : byte) : Z := Z.of_N (Byte.to_N b).

(** One [i] field of [struct.unpack('>ii', ...)]: four bytes, big endian,
    two's complement. *)
Definition int32_be (b0 b1 b2 b3 : byte) : Z :=
  let u := ((byte_value b0 * 256 + byte_value b1) * 256 + byte_value b2) * 256
           + byte_value b3 in
  if u <? 2 ^ 31 then u else u - 2 ^ 32.

(** [struct.unpack('>ii', bs)]: exactly eight bytes are required. *)
Definition unpack_ii (bs : list byte) : result (Z * Z) :=
  match bs with
  | [a0; a1; a2; a3; b0; b1; b2; b3] => Ok (int32_be a0 a1 a2 a3, int32_be b0 b1 b2 b3)
  | _ => Raise StructError
  end.

(** [bs[lo:hi]] for [0 <= lo <= hi] *)
Definition slice {A : Type} (lo hi : nat) (bs : list A) : list A :=
  firstn (hi - lo) (skipn lo bs).

Definition sizetest_path : string := path_join (tmpdir_name E) "sizetest.png".

(** Lines 109-120: measure the player through a scratch screenshot and
    resize the window once when the size differs from the requested one. *)
Definition calibrate (player : element) (window_size : Z * Z) : M unit :=
  do_call TemporaryDirectory ;;
  try_finally
    (do_call (Screenshot player sizetest_path) ;;
     do_call (OpenRead sizetest_path) ;;
     try_finally
       (do_call (Read 24) ;;
        let head := firstn 24 (sizetest_bytes E) in
        actual <- lift (unpack_ii (slice 16 24 head)) ;;
        let width_diff := fst window_size - fst actual in
        let height_diff := snd window_size - snd actual in
        if negb (width_diff =? 0) || negb (height_diff =? 0) then
          do_call (Print ("Resizing window by " ++ py_str width_diff ++ "x"
                          ++ py_str height_diff)) ;;
          do_call (SetWindowSize (fst window_size + width_diff)
                                 (snd window_size + height_diff)) ;;
          sleep 1
        else ret tt)
       (do_call (CloseFile sizetest_path)))
    (do_call (CleanupTemporaryDirectory (tmpdir_name E))).

(** ** CaptureLoop: count resolution, file names and the loop *)

(** The parsed command line. *)
Record args : Type := MkArgs {
  browser : option string;
  camera : string;
  window_size : Z * Z;
  driver_path : option string;
  interval : Z;
  num_screenshots : option Z;
  time : option Z
}.

(** Truth value of an optional string and of an optional integer. *)
Definition truthy_str (s : option string) : bool :=
  match s with
  | Some s' => negb (s' =? "")%string
  | None => false
  end.

Definition truthy_int (n : option Z) : bool :=
  match n with
  | Some n' => negb (n' =? 0)
  | None => false
  end.

(** Lines 126-129.  In the [else] branch a missing [args.time] makes the
    division a [TypeError]. *)
Definition resolve_num_screenshots (a : args) : result Z :=
  match truthy_int (num_screenshots a), num_screenshots a with
  | true, Some n => Ok n
  | _, _ =>
      match time a with
      | None => Raise TypeError
      | Some t =>
          match py_truediv t (interval a) with
          | Raise e => Raise e
          | Ok q => Ok (py_int_of_float q)
          end
      end
  end.

(** Line 131: [len(str(num_screenshots))] *)
Definition digits_of (num : Z) : Z := Z.of_nat (String.length (py_str num)).

(** Line 134: [screenshots_dir / f'{i:0{digits}d}.png'] *)
Definition screenshot_name (digits i : Z) : string :=
  (format_0d digits i ++ ".png")%string.

Definition screenshot_path (screenshots_dir : string) (digits i : Z) : string :=
  path_join screenshots_dir (screenshot_name digits i).

(** Lines 134-137: one turn of the loop. *)
Definition capture_once (player : element) (screenshots_dir : string)
    (interval_secs digits i : Z) : M unit :=
  let path := screenshot_path screenshots_dir digits i in
  do_call (Screenshot player path) ;;
  do_call (Print ("Saved " ++ path)) ;;
  sleep interval_secs.

(** Lines 131-137 *)
Definition capture_loop (player : element) (screenshots_dir : string)
    (interval_secs num : Z) : M unit :=
  let digits := digits_of num in
  for_each (py_range num) (capture_once player screenshots_dir interval_secs digits).

(** ** The main program *)

Definition player_of (a : args) : element := ById ("player-" ++ camera a).

Definition screenshots_dir_of (a : args) : string :=
  (camera a ++ "_" ++ now_stamp E)%string.

(** Lines 81-84 *)
Definition acquire (a : args) : M driver :=
  match truthy_str (browser a), browser a with
  | true, Some kind => create_driver kind (window_size a) (driver_path a)
  | _, _ => choose_driver (window_size a)
  end.

(** Lines 87-105: open the page, dismiss the cookie banner, put the player
    in full screen and start it. *)
Definition start_player (a : args) : M unit :=
  do_call (Get "https://skyview.ee") ;;
  sleep 5 ;;
  let cookie_accept := ById "cookie_action_close_header" in
  do_call (FindElement cookie_accept) ;;
  do_call (Click cookie_accept) ;;
  let player := player_of a in
  do_call (FindElement player) ;;
  do_call (ExecuteScript
    "arguments[0].classList.remove('jw-flag-user-inactive'); arguments[0].classList.add('jw-flag-fullscreen');"
    player) ;;
  let play := ByCssIn player "[aria-label='Play']" in
  do_call (FindElement play) ;;
  do_call ActionChains ;;
  do_call (MoveToElement play) ;;
  do_call (Click play) ;;
  sleep 1.

(** Lines 122-137: create the output directory, resolve the count and run
    the loop. *)
Definition record_captures (a : args) : M unit :=
  mkdir (screenshots_dir_of a) ;;
  num <- lift (resolve_num_screenshots a) ;;
  capture_loop (player_of a) (screenshots_dir_of a) (interval a) num.

(** Lines 87-137: the body of the [try]. *)
Definition session_body (a : args) : M unit :=
  start_player a ;;
  calibrate (player_of a) (window_size a) ;;
  record_captures a.

(** Lines 81-142 *)
Definition main (a : args) : M unit :=
  d <- acquire a ;;
  try_finally (session_body a) (do_call (Quit d)).

End Program.

(** A run starts with no call made. *)
Definition run {A : Type} (m : M A) : trace * result A := m [].

(** ** Vocabulary of the properties and sample environments *)

(** The launch of a table entry as [choose_driver] issues it, and the
    driver it yields. *)
Definition launch_of (window_size : Z * Z) (driver_path : option string)
    (entry : string * capability) : call :=
  Launch (snd entry) (launch_arguments window_size) driver_path.

Definition driver_of (entry : string * capability) : driver :=
  MkDriver (driverclass (snd entry)).

(** The exception that leaves [create_driver] when the launch raised [e]. *)
Definition create_driver_exn (browser : string) (e : exn) : exn :=
  if is_IndexError e then LookupError ("No browser found: " ++ browser) else e.

(** An entry that [BROWSERS[...]] finds under its own key. *)
Definition listed (entry : string * capability) : Prop :=
  dict_get BROWSERS (fst entry) = Some (snd entry).

(** The candidates of a prefix all raise [WebDriverException] when their
    turn comes. *)
Definition all_fail_launch (E : env) (ws : Z * Z) (h : trace)
    (failed : list (string * capability)) : Prop :=
  forall pre x post, failed = pre ++ x :: post ->
    exists cls,
      raises E (h ++ map (launch_of ws None) pre) (launch_of ws None x)
      = Some (WebDriverException cls).

(** An environment in which only Edge can be launched. *)
Definition only_edge : env :=
  MkEnv
    (fun _ c =>
       match c with
       | Launch cap _ _ =>
           if (driverclass cap =? "webdriver.Edge")%string then None
           else Some (WebDriverException "NoSuchDriverException")
       | _ => None
       end)
    "/tmp/tmpk3v9" [] "20240101_1200" (fun _ => false).

(** An environment in which launching Chrome is refused by the operating
    system and every other call succeeds. *)
Definition chrome_not_executable : env :=
  MkEnv
    (fun _ c =>
       match c with
       | Launch cap _ _ =>
           if (driverclass cap =? "webdriver.Chrome")%string
           then Some (OtherError "PermissionError") else None
       | _ => None
       end)
    "/tmp/tmpk3v9" [] "20240101_1200" (fun _ => false).

(** Every call that [m] makes, from whatever history, satisfies [P]. *)
Definition emits {A : Type} (P : call -> Prop) (m : M A) : Prop :=
  forall h, Forall P (fst (m h)).

(** No screenshot but the measurement one. *)
Definition scratch_screenshot_only (E : env) (c : call) : Prop :=
  match c with
  | Screenshot _ path => path = sizetest_path E
  | _ => True
  end.

Definition not_quit (c : call) : Prop :=
  match c with Quit _ => False | _ => True end.

(** The three calls of the turn [i], and the calls of a whole loop. *)
Definition capture_calls (player : element) (screenshots_dir : string)
    (interval_secs digits i : Z) : trace :=
  let path := screenshot_path screenshots_dir digits i in
  [Screenshot player path; Print ("Saved " ++ path); Sleep interval_secs].

Definition loop_calls (player : element) (screenshots_dir : string)
    (interval_secs num : Z) : trace :=
  flat_map (capture_calls player screenshots_dir interval_secs (digits_of num))
    (py_range num).

(** A PNG file of 1905 x 1080 pixels, as far as its first 26 bytes. *)
Definition png_1905x1080 : list byte :=
  [x89; x50; x4e; x47; x0d; x0a; x1a; x0a; x00; x00; x00; x0d; x49; x48; x44; x52;
   x00; x00; x07; x71; x00; x00; x04; x38; x08; x06].

(** An environment in which no call raises. *)
Definition quiet : env :=
  MkEnv (fun _ _ => None) "/tmp/tmpk3v9" png_1905x1080 "20240101_1200" (fun _ => false).

Definition is_resize (c : call) : bool :=
  match c with SetWindowSize _ _ => true | _ => false end.

Definition is_screenshot (c : call) : bool :=
  match c with Screenshot _ _ => true | _ => false end.

(** The calls that the calibration makes before it resizes the window. *)
Definition before_resize (c : call) : bool :=
  match c with
  | TemporaryDirectory | Screenshot _ _ | OpenRead _ | Read _ | Print _ => true
  | _ => false
  end.

(** Fuel [f] is enough to write [n]. *)
Definition enough_fuel (f : nat) (n : Z) : Prop :=
  (1 <= f)%nat /\ 0 <= n < 2 ^ Z.of_nat f.

(** An environment in which the output directory of the run is there
    already, and the command line of a run of four captures. *)
Definition directory_taken : env :=
  MkEnv (fun _ _ => None) "/tmp/tmpk3v9" png_1905x1080 "20240101_1200"
    (fun path => (path =? "teletorn_20240101_1200")%string).

Definition four_captures : args :=
  MkArgs None "teletorn" (1920, 1080) None 30 (Some 4) None.

(** ** Vocabulary of the further properties *)

(** Seconds in one unit of a duration token. *)
Definition unit_seconds (u : ascii) : Z :=
  if (u =? "h")%char then 3600 else if (u =? "m")%char then 60 else 1.

(** [s] is the digits [ds] and the unit [u], with or without one final
    newline. *)
Definition duration_token (s ds : string) (u : ascii) : Prop :=
  ds <> EmptyString /\ all_digits ds = true /\ is_unit u = true /\
  (s = (ds ++ String u EmptyString)%string \/
   s = (ds ++ String u (String "010" EmptyString))%string).

(** The byte of value [x], for [0 <= x < 256]. *)
Definition byte_of (x : Z) : byte :=
  match Byte.of_N (Z.to_N x) with
  | Some b => b
  | None => x00
  end.

(** The four bytes of [n] as a big-endian two's complement 32-bit field,
    as a PNG writer stores a width or a height. *)
Definition be32 (n : Z) : list byte :=
  [byte_of (n / 2 ^ 24 mod 256); byte_of (n / 2 ^ 16 mod 256);
   byte_of (n / 2 ^ 8 mod 256); byte_of (n mod 256)].

(** An environment in which no call raises and the measurement screenshot
    is an empty file. *)
Definition empty_screenshot : env :=
  MkEnv (fun _ _ => None) "/tmp/tmpk3v9" [] "20240101_1200" (fun _ => false).

(** The seconds spent in the pauses of a trace. *)
Fixpoint total_sleep (t : trace) : Z :=
  match t with
  | [] => 0
  | Sleep secs :: rest => secs + total_sleep rest
  | _ :: rest => total_sleep rest
  end.

Definition is_mkdir (c : call) : bool :=
  match c with Mkdir _ => true | _ => false end.

Definition negative_sleep : exn := ValueError "sleep length must be non-negative".

(** An environment in which the third capture of the run fails. *)
Definition third_capture_fails : env :=
  MkEnv
    (fun _ c =>
       match c with
       | Screenshot _ path =>
           if (path =? "teletorn_20240101_1200/2.png")%string
           then Some (WebDriverException "StaleElementReferenceException") else None
       | _ => None
       end)
    "/tmp/tmpk3v9" png_1905x1080 "20240101_1200" (fun _ => false).

(** An environment in which the page cannot be opened. *)
Definition page_unreachable : env :=
  MkEnv
    (fun _ c =>
       match c with
       | Get _ => Some (WebDriverException "TimeoutException")
       | _ => None
       end)
    "/tmp/tmpk3v9" png_1905x1080 "20240101_1200" (fun _ => false).

(** The file names of a run of 12 captures and of a run of 100. *)
Definition names_12 : list string :=
  ["00.png"; "01.png"; "02.png"; "03.png"; "04.png"; "05.png"; "06.png";
   "07.png"; "08.png"; "09.png"; "10.png"; "11.png"]%string.

Definition names_100 : list string :=
  [
   "000.png"; "001.png"; "002.png"; "003.png"; "004.png"; "005.png";
   "006.png"; "007.png"; "008.png"; "009.png"; "010.png"; "011.png";
   "012.png"; "013.png"; "014.png"; "015.png"; "016.png"; "017.png";
   "018.png"; "019.png"; "020.png"; "021.png"; "022.png"; "023.png";
   "024.png"; "025.png"; "026.png"; "027.png"; "028.png"; "029.png";
   "030.png"; "031.png"; "032.png"; "033.png"; "034.png"; "035.png";
   "036.png"; "037.png"; "038.png"; "039.png"; "040.png"; "041.png";
   "042.png"; "043.png"; "044.png"; "045.png"; "046.png"; "047.png";
   "048.png"; "049.png"; "050.png"; "051.png"; "052.png"; "053.png";
   "054.png"; "055.png"; "056.png"; "057.png"; "058.png"; "059.png";
   "060.png"; "061.png"; "062.png"; "063.png"; "064.png"; "065.png";
   "066.png"; "067.png"; "068.png"; "069.png"; "070.png"; "071.png";
   "072.png"; "073.png"; "074.png"; "075.png"; "076.png"; "077.png";
   "078.png"; "079.png"; "080.png"; "081.png"; "082.png"; "083.png";
   "084.png"; "085.png"; "086.png"; "087.png"; "088.png"; "089.png";
   "090.png"; "091.png"; "092.png"; "093.png"; "094.png"; "095.png";
   "096.png"; "097.png"; "098.png"; "099.png"
  ]%string.

(** ** [time2seconds] on text of any characters *)

(** A Python [str] in general is the list of its code points.  The
    functions below take [decimal], the table of the decimal digits of
    Unicode: [decimal c] is the digit value of the character [c] when [c]
    is a decimal digit (general category Nd) and [None] otherwise, as
    [unicodedata.decimal] gives it.  The class [\d] of a [str] pattern
    tests it and [int] reads the digits with it. *)
Definition text : Type := list N.

Definition is_decimal (decimal : N -> option Z) (c : N) : bool :=
  match decimal c with Some _ => true | None => false end.

Definition decimal_value (decimal : N -> option Z) (c : N) : Z :=
  match decimal c with Some d => d | None => 0 end.

(** The greedy [\d+] on text. *)
Fixpoint text_span_digits (decimal : N -> option Z) (s : text) : text * text :=
  match s with
  | [] => ([], [])
  | c :: s' =>
      if is_decimal decimal c then
        let (ds, rest) := text_span_digits decimal s' in (c :: ds, rest)
      else ([], s)
  end.

Fixpoint text_digits_value_from (decimal : N -> option Z) (acc : Z) (s : text) : Z :=
  match s with
  | [] => acc
  | c :: s' => text_digits_value_from decimal (10 * acc + decimal_value decimal c) s'
  end.

Definition text_digits_value (decimal : N -> option Z) (s : text) : Z :=
  text_digits_value_from decimal 0 s.

(** The code points of m, h and s. *)
Definition is_unit_code (c : N) : bool :=
  ((c =? 109) || (c =? 104) || (c =? 115))%N.

(** [re.match(r'^(\d+)([mhs])$', s)] on text; 10 is the newline. *)
Definition text_re_match_duration (decimal : N -> option Z) (s : text)
    : option (text * N) :=
  match text_span_digits decimal s with
  | ([], _) => None
  | (ds, [u]) => if is_unit_code u then Some (ds, u) else None
  | (ds, [u; nl]) => if is_unit_code u && (nl =? 10)%N then Some (ds, u) else None
  | _ => None
  end.

(** [int] on a non-empty run of decimal digits, with the digit limit. *)
Definition text_py_int (decimal : N -> option Z) (int_max_str_digits : nat)
    (ds : text) : result Z :=
  if ((0 <? int_max_str_digits) && (int_max_str_digits <? List.length ds))%nat
  then Raise (ValueError "Exceeds the limit for integer string conversion")
  else Ok (text_digits_value decimal ds).

(** [time2seconds(s)] for a [str] of any characters. *)
Definition time2seconds_text (decimal : N -> option Z) (int_max_str_digits : nat)
    (s : text) : result Z :=
  match text_re_match_duration decimal s with
  | None => Raise invalid_time_format
  | Some (ds, unit) =>
      match text_py_int decimal int_max_str_digits ds with
      | Raise _ => Raise invalid_time_format
      | Ok number =>
          if (unit =? 104)%N then Ok (number * 3600)
          else if (unit =? 109)%N then Ok (number * 60)
          else Ok number
      end
  end.

(** The code points of a string of the 8-bit model. *)
Fixpoint codes (s : string) : text :=
  match s with
  | EmptyString => []
  | String c s' => N_of_ascii c :: codes s'
  end.

(** What the Unicode table says below code point 256: the only decimal
    digits there are '0' to '9', with their values. *)
Definition latin1_decimal (decimal : N -> option Z) : Prop :=
  forall c, (c < 256)%N ->
    decimal c = if ((48 <=? c) && (c <=? 57))%N then Some (Z.of_N c - 48) else None.

(** Seconds in one unit, by code point. *)
Definition unit_code_seconds (u : N) : Z :=
  if (u =? 104)%N then 3600 else if (u =? 109)%N then 60 else 1.

(** [s] is the decimal digits [ds] and the unit [u], with or without one
    final newline. *)
Definition text_duration_token (decimal : N -> option Z) (s ds : text) (u : N)
    : Prop :=
  ds <> [] /\ forallb (is_decimal decimal) ds = true /\ is_unit_code u = true /\
  (s = ds ++ [u] \/ s = ds ++ [u; 10%N]).

(** A part of the Unicode table: the digits of ASCII, the Arabic-Indic
    digits (U+0660..), the Devanagari digits (U+0966..) and the fullwidth
    digits (U+FF10..). *)
Definition sample_decimal (c : N) : option Z :=
  if ((48 <=? c) && (c <=? 57))%N then Some (Z.of_N c - 48)
  else if ((1632 <=? c) && (c <=? 1641))%N then Some (Z.of_N c - 1632)
  else if ((2406 <=? c) && (c <=? 2415))%N then Some (Z.of_N c - 2406)
  else if ((65296 <=? c) && (c <=? 65305))%N then Some (Z.of_N c - 65296)
  else None.

(** * Properties *)

(** ** Pauses *)

Lemma sleep_in_range (E : env) (secs : Z) :
  0 <= secs <= sleep_max -> sleep E secs = do_call E (Sleep secs).
Proof.
  intros H. unfold sleep.
  destruct (Z.ltb_spec secs (- sleep_max)) as [?|_]; [unfold sleep_max in *; lia|].
  destruct (Z.ltb_spec sleep_max secs) as [?|_]; [lia|].
  destruct (Z.ltb_spec secs 0) as [?|_]; [lia | reflexivity].
Qed.

(** ** DurationResolver *)

Lemma span_digits_app (ds rest : string) (c : ascii) :
  all_digits ds = true -> is_digit c = false ->
  span_digits (ds ++ String c rest) = (ds, String c rest).
Proof.
  intros Hds Hc. induction ds as [|d ds IH]; simpl in *.
  - now rewrite Hc.
  - apply andb_true_iff in Hds as [Hd Hds]. rewrite Hd, (IH Hds). reflexivity.
Qed.

Lemma span_digits_all (ds : string) :
  all_digits ds = true -> span_digits ds = (ds, EmptyString).
Proof.
  induction ds as [|d ds IH]; simpl; intros H; [reflexivity|].
  apply andb_true_iff in H as [Hd Hds]. now rewrite Hd, (IH Hds).
Qed.

Lemma re_match_duration_unit (ds : string) (u : ascii) :
  ds <> EmptyString -> all_digits ds = true -> is_unit u = true ->
  re_match_duration (ds ++ String u EmptyString) = Some (ds, u).
Proof.
  intros Hne Hds Hu. unfold re_match_duration.
  assert (Hnd : is_digit u = false).
  { unfold is_unit in Hu.
    repeat (apply orb_true_iff in Hu as [Hu|Hu]);
      apply Ascii.eqb_eq in Hu; subst u; reflexivity. }
  rewrite (span_digits_app ds EmptyString u Hds Hnd).
  destruct ds; [congruence|]. now rewrite Hu.
Qed.

Lemma re_match_duration_bare (ds : string) :
  all_digits ds = true -> re_match_duration ds = None.
Proof.
  intros Hds. unfold re_match_duration. rewrite (span_digits_all ds Hds).
  now destruct ds.
Qed.

Lemma py_int_within (lim : nat) (ds : string) :
  (lim = 0 \/ String.length ds <= lim)%nat -> py_int lim ds = Ok (digits_value ds).
Proof.
  intros H. unfold py_int.
  destruct (Nat.ltb_spec 0 lim), (Nat.ltb_spec lim (String.length ds)); simpl;
    try reflexivity; lia.
Qed.

(** C1 (as amended): for a non-empty run of digits [ds] that [int] accepts
    (always, when no digit limit is set), [time2seconds] maps [ds]h, [ds]m
    and [ds]s to the value of [ds] times 3600, 60 and 1; the bare run [ds]
    without a unit is rejected with [ValueError('Invalid time format')]. *)
Theorem time2seconds_units (lim : nat) (ds : string) :
  ds <> EmptyString -> all_digits ds = true ->
  (lim = 0 \/ String.length ds <= lim)%nat ->
  time2seconds lim (ds ++ "h") = Ok (digits_value ds * 3600) /\
  time2seconds lim (ds ++ "m") = Ok (digits_value ds * 60) /\
  time2seconds lim (ds ++ "s") = Ok (digits_value ds) /\
  time2seconds lim ds = Raise invalid_time_format.
Proof.
  intros Hne Hds Hlim. unfold time2seconds.
  rewrite !re_match_duration_unit by (assumption || reflexivity).
  rewrite (re_match_duration_bare ds Hds), (py_int_within lim ds Hlim).
  repeat split; reflexivity.
Qed.

Lemma time2seconds_units_witness :
  time2seconds 4300 "45h" = Ok (digits_value "45" * 3600) /\
  time2seconds 4300 "45m" = Ok (digits_value "45" * 60) /\
  time2seconds 4300 "45s" = Ok (digits_value "45") /\
  time2seconds 4300 "45" = Raise invalid_time_format.
Proof.
  apply (time2seconds_units 4300 "45");
    [discriminate | reflexivity | right; simpl; lia].
Defined.

(** C1, the claim as written fails: the bare token "45" is not mapped to 45
    but rejected, with or without a digit limit. *)
Lemma time2seconds_bare_rejected :
  time2seconds 4300 "45" <> Ok 45 /\ time2seconds 0 "45" <> Ok 45.
Proof. split; vm_compute; discriminate. Qed.

Example time2seconds_examples :
  time2seconds 4300 "2h" = Ok 7200 /\
  time2seconds 4300 "90m" = Ok 5400 /\
  time2seconds 4300 "45s" = Ok 45.
Proof. repeat split. Qed.

(** ** BrowserAcquirer *)

Lemma BROWSERS_listed : Forall listed BROWSERS.
Proof. repeat constructor. Qed.

Lemma create_driver_unknown (E : env) (kind : string) (ws : Z * Z)
    (dp : option string) (h : trace) :
  dict_get BROWSERS kind = None ->
  create_driver E kind ws dp h = ([], Raise (KeyError kind)).
Proof.
  intros Hk. unfold create_driver, try_except, bind, browsers_item.
  rewrite Hk. reflexivity.
Qed.

Lemma create_driver_listed (E : env) (entry : string * capability) (ws : Z * Z)
    (dp : option string) (h : trace) :
  listed entry ->
  create_driver E (fst entry) ws dp h =
    ([launch_of ws dp entry],
     match raises E h (launch_of ws dp entry) with
     | None => Ok (driver_of entry)
     | Some e => Raise (create_driver_exn (fst entry) e)
     end).
Proof.
  intros Hl. unfold create_driver, try_except, bind, browsers_item.
  rewrite Hl. cbn. rewrite app_nil_r. fold (launch_of ws dp entry).
  destruct (raises E h (launch_of ws dp entry)) as [e|]; cbn.
  - unfold create_driver_exn. destruct (is_IndexError e); reflexivity.
  - reflexivity.
Qed.

Lemma all_fail_launch_tail (E : env) (ws : Z * Z) (h : trace)
    (x : string * capability) (failed : list (string * capability)) :
  all_fail_launch E ws h (x :: failed) ->
  all_fail_launch E ws (h ++ [launch_of ws None x]) failed.
Proof.
  intros H pre y post Heq.
  destruct (H (x :: pre) y post) as [cls Hc]; [now rewrite Heq|].
  exists cls. rewrite <- app_assoc. exact Hc.
Qed.

Lemma choose_among_skip_failed (E : env) (ws : Z * Z)
    (failed rest : list (string * capability)) :
  forall h, Forall listed failed -> all_fail_launch E ws h failed ->
  choose_among E (map fst (failed ++ rest)) ws h =
    (map (launch_of ws None) failed
       ++ fst (choose_among E (map fst rest) ws (h ++ map (launch_of ws None) failed)),
     snd (choose_among E (map fst rest) ws (h ++ map (launch_of ws None) failed))).
Proof.
  induction failed as [|x failed IH]; intros h Hl Hf.
  - cbn. rewrite app_nil_r. now destruct (choose_among E (map fst rest) ws h).
  - inversion Hl as [|? ? Hx Hl']; subst.
    destruct (Hf [] x failed eq_refl) as [cls Hc]. cbn in Hc. rewrite app_nil_r in Hc.
    cbn [map app choose_among]. unfold try_except.
    rewrite (create_driver_listed E x ws None h Hx), Hc.
    unfold create_driver_exn. cbn [is_IndexError is_WebDriverException].
    rewrite (IH (h ++ [launch_of ws None x]) Hl' (all_fail_launch_tail E ws h x failed Hf)).
    cbn. now rewrite <- !app_assoc.
Qed.

(** C4 (as amended): without an explicit kind the table is tried in its
    declared order.  When the candidates [failed] at the head of the table
    all raise [WebDriverException], the next candidate [x] decides: if its
    launch does not raise, its driver is returned and nothing after it is
    attempted; if it raises another exception, the acquisition ends with
    that exception (an [IndexError] turned into [LookupError]) and nothing
    after it is attempted; and when no candidate is left the acquisition
    fails with [LookupError('No supported browser found')]. *)
Theorem choose_driver_first_success (E : env) (ws : Z * Z) (h : trace)
    (failed rest : list (string * capability)) :
  BROWSERS = failed ++ rest ->
  all_fail_launch E ws h failed ->
  match rest with
  | [] =>
      choose_driver E ws h =
        (map (launch_of ws None) failed,
         Raise (LookupError "No supported browser found"))
  | x :: _ =>
      match raises E (h ++ map (launch_of ws None) failed) (launch_of ws None x) with
      | None =>
          choose_driver E ws h =
            (map (launch_of ws None) (failed ++ [x]), Ok (driver_of x))
      | Some e =>
          is_WebDriverException e = false ->
          choose_driver E ws h =
            (map (launch_of ws None) (failed ++ [x]),
             Raise (create_driver_exn (fst x) e))
      end
  end.
Proof.
  intros Htab Hfail.
  assert (Hl : Forall listed (failed ++ rest)) by (rewrite <- Htab; apply BROWSERS_listed).
  apply Forall_app in Hl as [Hlf Hlr].
  unfold choose_driver. rewrite Htab, (choose_among_skip_failed E ws failed rest h Hlf Hfail).
  destruct rest as [|x rest'].
  - cbn. now rewrite app_nil_r.
  - inversion Hlr as [|? ? Hx _]; subst.
    cbn [map choose_among]. unfold try_except.
    rewrite (create_driver_listed E x ws None _ Hx), map_app. cbn [map].
    destruct (raises E (h ++ map (launch_of ws None) failed) (launch_of ws None x)) as [e|].
    + intros He. unfold create_driver_exn at 1 2.
      destruct e; cbn in He; try discriminate; cbn; reflexivity.
    + reflexivity.
Qed.

Lemma choose_driver_first_success_witness :
  choose_driver only_edge (1920, 1080) [] =
    (map (launch_of (1920, 1080) None) (firstn 3 BROWSERS),
     Ok (MkDriver "webdriver.Edge")).
Proof.
  refine (choose_driver_first_success only_edge (1920, 1080) []
            (firstn 2 BROWSERS) (skipn 2 BROWSERS) eq_refl _).
  intros pre x post Heq.
  destruct pre as [|p1 [|p2 [|p3 pre]]]; inversion Heq; subst;
    eexists; reflexivity.
Defined.

(** C4, the claim as written fails: a candidate whose launch fails with an
    exception that is not a [WebDriverException] is not discarded; the
    acquisition ends there although the next candidate would launch. *)
Lemma choose_driver_stops_on_other_exception :
  run (choose_driver chrome_not_executable (1920, 1080)) =
    (map (launch_of (1920, 1080) None) (firstn 1 BROWSERS),
     Raise (OtherError "PermissionError"))
  /\ raises chrome_not_executable
       (map (launch_of (1920, 1080) None) (firstn 1 BROWSERS))
       (launch_of (1920, 1080) None ("firefox"%string,
          MkCapability "webdriver.Firefox" "webdriver.FirefoxService"
            "webdriver.FirefoxOptions")) = None
  /\ snd (run (choose_driver chrome_not_executable (1920, 1080)))
     <> Ok (MkDriver "webdriver.Firefox").
Proof. repeat split. vm_compute. discriminate. Qed.

(** C3: for a kind that is not a key of [BROWSERS], the acquisition with
    that explicit kind makes no call at all, so no launch is attempted and
    no other kind is tried, and it fails with the error of the unknown
    kind: the [KeyError] of [BROWSERS[kind]], which is a [LookupError].
    This holds for [create_driver] and for the program's dispatch on
    [args.browser]. *)
Theorem create_driver_unknown_kind (E : env) (kind : string) (ws : Z * Z)
    (dp : option string) (h : trace) :
  dict_get BROWSERS kind = None ->
  create_driver E kind ws dp h = ([], Raise (KeyError kind)) /\
  is_LookupError (KeyError kind) = true /\
  (forall a, browser a = Some kind -> kind <> EmptyString ->
     acquire E a h = ([], Raise (KeyError kind))).
Proof.
  intros Hk. split; [exact (create_driver_unknown E kind ws dp h Hk)|].
  split; [reflexivity|].
  intros a Hb Hne. unfold acquire. rewrite Hb. cbn [truthy_str].
  destruct (String.eqb_spec kind EmptyString) as [?|_]; [contradiction|].
  cbn [negb]. apply create_driver_unknown, Hk.
Qed.

Lemma create_driver_unknown_kind_witness :
  create_driver only_edge "opera" (1920, 1080) None [] = ([], Raise (KeyError "opera")) /\
  is_LookupError (KeyError "opera") = true /\
  (forall a, browser a = Some "opera"%string -> "opera"%string <> EmptyString ->
     acquire only_edge a [] = ([], Raise (KeyError "opera"))).
Proof.
  apply (create_driver_unknown_kind only_edge "opera" (1920, 1080) None []).
  reflexivity.
Defined.

Lemma choose_among_launches (E : env) (ws : Z * Z) (kinds : list string) :
  forall h,
    Forall (fun c => exists cap, c = Launch cap (launch_arguments ws) None)
      (fst (choose_among E kinds ws h)).
Proof.
  induction kinds as [|k kinds IH]; intros h; [constructor|].
  cbn [choose_among]. unfold try_except.
  destruct (dict_get BROWSERS k) as [cap|] eqn:Hk.
  - pose proof (create_driver_listed E (k, cap) ws None h Hk) as Hc.
    cbn [fst] in Hc. rewrite Hc.
    destruct (raises E h (launch_of ws None (k, cap))) as [e|].
    + destruct (is_WebDriverException (create_driver_exn k e)).
      * specialize (IH (h ++ [launch_of ws None (k, cap)])).
        destruct (choose_among E kinds ws (h ++ [launch_of ws None (k, cap)])).
        constructor; [now exists cap | exact IH].
      * repeat constructor. now exists cap.
    + repeat constructor. now exists cap.
  - rewrite (create_driver_unknown E k ws None h Hk). constructor.
Qed.

(** C10: when [args.browser] is empty or absent, the driver is acquired by
    [choose_driver], which does not receive [args.driver_path]: two runs
    that differ in the driver path only acquire alike, and every launch is
    made without an executable path. *)
Theorem acquire_ignores_driver_path (E : env) (h : trace) (b : option string)
    (cam : string) (ws : Z * Z) (dp1 dp2 : option string) (i : Z)
    (n t : option Z) :
  truthy_str b = false ->
  acquire E (MkArgs b cam ws dp1 i n t) h = acquire E (MkArgs b cam ws dp2 i n t) h /\
  Forall (fun c => exists cap, c = Launch cap (launch_arguments ws) None)
    (fst (acquire E (MkArgs b cam ws dp1 i n t) h)).
Proof.
  intros Hb. unfold acquire. cbn [browser window_size driver_path]. rewrite Hb.
  split; [reflexivity|]. apply choose_among_launches.
Qed.

Lemma acquire_ignores_driver_path_witness :
  acquire only_edge
    (MkArgs None "teletorn" (1920, 1080) (Some "/opt/chromedriver"%string) 30 (Some 4) None) []
  = acquire only_edge (MkArgs None "teletorn" (1920, 1080) None 30 (Some 4) None) []
  /\ Forall (fun c => exists cap, c = Launch cap (launch_arguments (1920, 1080)) None)
       (fst (acquire only_edge
          (MkArgs None "teletorn" (1920, 1080) (Some "/opt/chromedriver"%string) 30 (Some 4) None) [])).
Proof.
  apply (acquire_ignores_driver_path only_edge [] None "teletorn" (1920, 1080)).
  reflexivity.
Defined.

(** ** Calls a computation can make *)

Section Emits.

Variable P : call -> Prop.

Lemma emits_ret {A : Type} (a : A) : emits P (ret a).
Proof. intros h. constructor. Qed.

Lemma emits_raise {A : Type} (e : exn) : emits P (@raise A e).
Proof. intros h. constructor. Qed.

Lemma emits_lift {A : Type} (r : result A) : emits P (lift r).
Proof. intros h. constructor. Qed.

Lemma emits_bind {A B : Type} (m : M A) (f : A -> M B) :
  emits P m -> (forall a, emits P (f a)) -> emits P (bind m f).
Proof.
  intros Hm Hf h. unfold bind. specialize (Hm h).
  destruct (m h) as [t1 [a|e]]; cbn in *; [|exact Hm].
  specialize (Hf a (h ++ t1)). destruct (f a (h ++ t1)) as [t2 r2]; cbn in *.
  apply Forall_app; split; assumption.
Qed.

Lemma emits_try_finally {A : Type} (body : M A) (cleanup : M unit) :
  emits P body -> emits P cleanup -> emits P (try_finally body cleanup).
Proof.
  intros Hb Hc h. unfold try_finally. specialize (Hb h).
  destruct (body h) as [t1 r1]; cbn in *.
  specialize (Hc (h ++ t1)). destruct (cleanup (h ++ t1)) as [t2 r2]; cbn in *.
  apply Forall_app; split; assumption.
Qed.

Lemma emits_try_except {A : Type} (body : M A) (handler : exn -> option (M A)) :
  emits P body -> (forall e k, handler e = Some k -> emits P k) ->
  emits P (try_except body handler).
Proof.
  intros Hb Hh h. unfold try_except. specialize (Hb h).
  destruct (body h) as [t1 [a|e]]; cbn in *; [exact Hb|].
  destruct (handler e) as [k|] eqn:Hk; [|exact Hb].
  specialize (Hh e k Hk (h ++ t1)). destruct (k (h ++ t1)) as [t2 r2]; cbn in *.
  apply Forall_app; split; assumption.
Qed.

Lemma emits_for_each {A : Type} (xs : list A) (body : A -> M unit) :
  (forall x, emits P (body x)) -> emits P (for_each xs body).
Proof.
  intros Hb. induction xs as [|x xs IH]; cbn [for_each].
  - apply emits_ret.
  - apply emits_bind; [apply Hb | intros _; exact IH].
Qed.

Variable E : env.

Lemma emits_do_call (c : call) : P c -> emits P (do_call E c).
Proof. intros Hc h. cbn. constructor; [exact Hc | constructor]. Qed.

Lemma emits_sleep (secs : Z) : P (Sleep secs) -> emits P (sleep E secs).
Proof.
  intros Hc. unfold sleep.
  destruct ((secs <? - sleep_max) || (sleep_max <? secs)); [apply emits_raise|].
  destruct (secs <? 0); [apply emits_raise | now apply emits_do_call].
Qed.

Lemma emits_mkdir (path : string) : P (Mkdir path) -> emits P (mkdir E path).
Proof. intros Hc h. cbn. constructor; [exact Hc | constructor]. Qed.

End Emits.

Ltac emits_step :=
  first
    [ apply emits_ret | apply emits_raise | apply emits_lift
    | apply emits_bind; [|intros ?]
    | apply emits_try_finally
    | apply emits_for_each; intros ?
    | apply emits_do_call | apply emits_sleep | apply emits_mkdir ].

Lemma emits_create_driver (P : call -> Prop) (E : env) (kind : string)
    (ws : Z * Z) (dp : option string) :
  (forall cap, P (Launch cap (launch_arguments ws) dp)) ->
  emits P (create_driver E kind ws dp).
Proof.
  intros HP. unfold create_driver, browsers_item, launch.
  apply emits_try_except.
  - apply emits_bind.
    + destruct (dict_get BROWSERS kind); emits_step.
    + intros cap. repeat emits_step. apply HP.
  - intros e k Hk. destruct (is_IndexError e); inversion Hk. apply emits_raise.
Qed.

Lemma emits_acquire (P : call -> Prop) (E : env) (a : args) :
  (forall cap args dp, P (Launch cap args dp)) -> emits P (acquire E a).
Proof.
  intros HP. unfold acquire.
  assert (Hc : emits P (choose_driver E (window_size a))).
  { intros h. refine (Forall_impl P _ (choose_among_launches E _ _ h)).
    intros c [cap ->]. apply HP. }
  destruct (truthy_str (browser a)), (browser a); try exact Hc.
  apply emits_create_driver. intros cap. apply HP.
Qed.

Lemma emits_start_player (P : call -> Prop) (E : env) (a : args) :
  (forall c, not_quit c -> scratch_screenshot_only E c ->
             (forall p, c <> Mkdir p) -> P c) ->
  emits P (start_player E a).
Proof.
  intros HP. unfold start_player.
  repeat emits_step; apply HP; cbn; try exact I; discriminate.
Qed.

Lemma emits_calibrate (P : call -> Prop) (E : env) (player : element) (ws : Z * Z) :
  (forall c, not_quit c -> scratch_screenshot_only E c ->
             (forall p, c <> Mkdir p) -> P c) ->
  emits P (calibrate E player ws).
Proof.
  intros HP. unfold calibrate.
  repeat emits_step;
    try (match goal with |- emits _ (if ?b then _ else _) => destruct b end);
    repeat emits_step; apply HP; cbn; try exact I; try reflexivity; discriminate.
Qed.

Lemma emits_session_body_not_quit (E : env) (a : args) :
  emits not_quit (session_body E a).
Proof.
  unfold session_body, record_captures, capture_loop, capture_once.
  apply emits_bind; [apply emits_start_player; auto|intros _].
  apply emits_bind; [apply emits_calibrate; auto|intros _].
  repeat emits_step; exact I.
Qed.

(** ** The main program: release of the browser and the output directory *)

(** C9: when the acquisition returns a driver [d], the calls of the run are
    those of the acquisition, then those of the body of the [try], then
    [Quit d] as the last call, however the body ended; [quit] is called
    nowhere else.  When the acquisition raises there is no session and the
    run ends with its exception. *)
Theorem main_always_quits (E : env) (a : args) (h : trace) :
  match acquire E a h with
  | (t0, Ok d) =>
      let tb := fst (session_body E a (h ++ t0)) in
      fst (main E a h) = t0 ++ tb ++ [Quit d] /\ Forall not_quit (t0 ++ tb)
  | (t0, Raise e) =>
      main E a h = (t0, Raise e) /\ Forall not_quit t0
  end.
Proof.
  pose proof (emits_acquire not_quit E a (fun _ _ _ => I) h) as Hacq.
  unfold main, bind, try_finally.
  destruct (acquire E a h) as [t0 [d|e]]; cbn in *.
  - pose proof (emits_session_body_not_quit E a (h ++ t0)) as Hb.
    destruct (session_body E a (h ++ t0)) as [tb rb]; cbn in *.
    split; [reflexivity | apply Forall_app; split; assumption].
  - split; [reflexivity | exact Hacq].
Qed.

(** C8: when the output directory exists already, the creation of the
    directory raises [FileExistsError] and the loop is not entered; a body
    that gets as far as the creation ends with that exception right after
    the [mkdir] call; the body never ends normally, every screenshot it
    takes is the measurement one in the scratch directory, and the run
    never ends normally either. *)
Theorem existing_output_directory (E : env) (a : args) (h : trace) :
  dir_exists E (screenshots_dir_of E a) = true ->
  record_captures E a h
    = ([Mkdir (screenshots_dir_of E a)],
       Raise (FileExistsError (screenshots_dir_of E a))) /\
  (forall t1 t2,
     start_player E a h = (t1, Ok tt) ->
     calibrate E (player_of a) (window_size a) (h ++ t1) = (t2, Ok tt) ->
     session_body E a h
       = (t1 ++ t2 ++ [Mkdir (screenshots_dir_of E a)],
          Raise (FileExistsError (screenshots_dir_of E a)))) /\
  snd (session_body E a h) <> Ok tt /\
  Forall (scratch_screenshot_only E) (fst (session_body E a h)) /\
  snd (main E a h) <> Ok tt.
Proof.
  intros Hex.
  assert (Hrec : forall h', record_captures E a h'
            = ([Mkdir (screenshots_dir_of E a)],
               Raise (FileExistsError (screenshots_dir_of E a)))).
  { intros h'. unfold record_captures, bind, mkdir. now rewrite Hex. }
  assert (Hbody : forall h', snd (session_body E a h') <> Ok tt
            /\ Forall (scratch_screenshot_only E) (fst (session_body E a h'))).
  { intros h'. unfold session_body, bind.
    pose proof (emits_start_player (scratch_screenshot_only E) E a
                  (fun _ _ H _ => H) h') as H1.
    destruct (start_player E a h') as [t1 [[]|e1]]; cbn [fst snd] in *;
      [|split; [discriminate | exact H1]].
    pose proof (emits_calibrate (scratch_screenshot_only E) E (player_of a)
                  (window_size a) (fun _ _ H _ => H) (h' ++ t1)) as H2.
    destruct (calibrate E (player_of a) (window_size a) (h' ++ t1))
      as [t2 [[]|e2]]; cbn [fst snd] in *.
    - rewrite Hrec. cbn [fst snd]. split; [discriminate|].
      apply Forall_app; split; [exact H1|].
      apply Forall_app; split; [exact H2 | repeat constructor].
    - split; [discriminate | apply Forall_app; split; assumption]. }
  split; [apply Hrec|]. split; [|split; [apply Hbody | split; [apply Hbody|]]].
  - intros t1 t2 H1 H2. unfold session_body, bind. rewrite H1, H2, Hrec. reflexivity.
  - unfold main, bind, try_finally.
    destruct (acquire E a h) as [t0 [d|e]]; cbn; [|discriminate].
    destruct (Hbody (h ++ t0)) as [Hne _].
    destruct (session_body E a (h ++ t0)) as [tb rb]; cbn in *.
    destruct (raises E ((h ++ t0) ++ tb) (Quit d)); [discriminate | exact Hne].
Qed.

Lemma existing_output_directory_witness :
  record_captures directory_taken four_captures []
    = ([Mkdir "teletorn_20240101_1200"],
       Raise (FileExistsError "teletorn_20240101_1200")) /\
  (forall t1 t2,
     start_player directory_taken four_captures [] = (t1, Ok tt) ->
     calibrate directory_taken (player_of four_captures) (window_size four_captures)
       ([] ++ t1) = (t2, Ok tt) ->
     session_body directory_taken four_captures []
       = (t1 ++ t2 ++ [Mkdir "teletorn_20240101_1200"],
          Raise (FileExistsError "teletorn_20240101_1200"))) /\
  snd (session_body directory_taken four_captures []) <> Ok tt /\
  Forall (scratch_screenshot_only directory_taken)
    (fst (session_body directory_taken four_captures [])) /\
  snd (main directory_taken four_captures []) <> Ok tt.
Proof.
  apply (existing_output_directory directory_taken four_captures []).
  reflexivity.
Defined.

(** ** CaptureLoop *)

Lemma capture_once_quiet (E : env) (player : element) (dir : string)
    (secs digits i : Z) (h : trace) :
  0 <= secs <= sleep_max ->
  (forall h' c, In c (capture_calls player dir secs digits i) -> raises E h' c = None) ->
  capture_once E player dir secs digits i h
    = (capture_calls player dir secs digits i, Ok tt).
Proof.
  intros Hs Hq. unfold capture_once. rewrite (sleep_in_range E secs Hs).
  unfold capture_calls, bind, do_call in *.
  rewrite !Hq by (cbn; auto). reflexivity.
Qed.

Lemma for_each_capture_quiet (E : env) (player : element) (dir : string)
    (secs digits : Z) (xs : list Z) :
  0 <= secs <= sleep_max ->
  (forall h' c, In c (flat_map (capture_calls player dir secs digits) xs) ->
                raises E h' c = None) ->
  forall h,
    for_each xs (capture_once E player dir secs digits) h
      = (flat_map (capture_calls player dir secs digits) xs, Ok tt).
Proof.
  intros Hs. induction xs as [|x xs IH]; intros Hq h; [reflexivity|].
  cbn [for_each flat_map]. unfold bind.
  rewrite capture_once_quiet;
    [|exact Hs | intros h' c Hc; apply Hq; cbn [flat_map]; apply in_or_app; now left].
  rewrite IH; [reflexivity|].
  intros h' c Hc. apply Hq. cbn [flat_map]. apply in_or_app. now right.
Qed.

Lemma capture_once_prefix (E : env) (player : element) (dir : string)
    (secs digits i : Z) (h : trace) :
  match capture_once E player dir secs digits i h with
  | (t, Ok _) => t = capture_calls player dir secs digits i
  | (t, Raise _) => exists rest, capture_calls player dir secs digits i = t ++ rest
  end.
Proof.
  unfold capture_once, capture_calls, bind, sleep.
  destruct ((secs <? - sleep_max) || (sleep_max <? secs)); [|destruct (secs <? 0)];
    unfold do_call, raise;
    repeat (match goal with
            | |- context [raises E ?h ?c] => destruct (raises E h c)
            end);
    cbn; try reflexivity;
    first [now eexists [_; _] | now eexists [_] | now exists []].
Qed.

Lemma for_each_capture_prefix (E : env) (player : element) (dir : string)
    (secs digits : Z) (xs : list Z) :
  forall h, exists rest,
    flat_map (capture_calls player dir secs digits) xs
      = fst (for_each xs (capture_once E player dir secs digits) h) ++ rest.
Proof.
  induction xs as [|x xs IH]; intros h; [now exists []|].
  cbn [for_each flat_map]. unfold bind.
  pose proof (capture_once_prefix E player dir secs digits x h) as Hx.
  destruct (capture_once E player dir secs digits x h) as [t [[]|e]].
  - subst t. destruct (IH (h ++ capture_calls player dir secs digits x)) as [rest Hr].
    destruct (for_each xs _ _) as [t2 r2]. cbn [fst] in *.
    exists rest. now rewrite Hr, app_assoc.
  - destruct Hx as [rest Hr]. cbn [fst].
    exists (rest ++ flat_map (capture_calls player dir secs digits) xs).
    now rewrite Hr, app_assoc.
Qed.

(** C2 (as amended): the calls of the loop are always an initial part of
    the sequence "screenshot into [dir/<i padded>.png], report the path,
    pause for the interval" taken for i = 0, 1, ..., count-1 in this order;
    and when the interval is one that [time.sleep] accepts (not negative
    and at most [sleep_max] seconds, beyond which it raises
    [OverflowError]) and none of these calls raises, the loop makes all of
    them and ends normally: every capture, the last one too, is followed by
    a pause. *)
Theorem capture_loop_sequence (E : env) (player : element) (dir : string)
    (secs num : Z) (h : trace) :
  (exists rest,
     loop_calls player dir secs num
       = fst (capture_loop E player dir secs num h) ++ rest) /\
  (0 <= secs <= sleep_max ->
   (forall h' c, In c (loop_calls player dir secs num) -> raises E h' c = None) ->
   capture_loop E player dir secs num h = (loop_calls player dir secs num, Ok tt)).
Proof.
  split.
  - apply for_each_capture_prefix.
  - intros Hs Hq. now apply for_each_capture_quiet.
Qed.

Lemma capture_loop_sequence_witness :
  capture_loop quiet (ById "player-teletorn") "teletorn_20240101_1200" 30 2 []
  = (loop_calls (ById "player-teletorn") "teletorn_20240101_1200" 30 2, Ok tt).
Proof.
  apply (proj2 (capture_loop_sequence quiet (ById "player-teletorn")
                  "teletorn_20240101_1200" 30 2 []));
    [unfold sleep_max; lia | intros; reflexivity].
Defined.

(** C2, the claim as written fails: with two captures 30 seconds apart and
    no failure, the last call of the loop is a pause of 30 seconds, after
    the final capture was reported. *)
Lemma capture_loop_pauses_after_last :
  fst (run (capture_loop quiet (ById "player-teletorn") "teletorn_20240101_1200" 30 2))
  = [ Screenshot (ById "player-teletorn") "teletorn_20240101_1200/0.png";
      Print "Saved teletorn_20240101_1200/0.png";
      Sleep 30;
      Screenshot (ById "player-teletorn") "teletorn_20240101_1200/1.png";
      Print "Saved teletorn_20240101_1200/1.png";
      Sleep 30 ]
  /\ fst (run (capture_loop quiet (ById "player-teletorn") "teletorn_20240101_1200" 30 2))
  <> [ Screenshot (ById "player-teletorn") "teletorn_20240101_1200/0.png";
       Print "Saved teletorn_20240101_1200/0.png";
       Sleep 30;
       Screenshot (ById "player-teletorn") "teletorn_20240101_1200/1.png";
       Print "Saved teletorn_20240101_1200/1.png" ].
Proof. split; [reflexivity | vm_compute; discriminate]. Qed.

(** ** ViewportCalibrator *)

(** C5: when the measurement goes through (no call before the resize
    raises) and the header of the screenshot gives the size [(aw, ah)],
    the calibration calls [set_window_size] not at all if [(aw, ah)] is the
    requested size, and otherwise exactly once, with the requested size
    plus the difference requested - actual in each dimension; and it takes
    exactly one screenshot, so nothing is measured again. *)
Theorem calibrate_single_resize (E : env) (player : element) (ws : Z * Z)
    (h : trace) (aw ah : Z) :
  (forall h' c, before_resize c = true -> raises E h' c = None) ->
  unpack_ii (slice 16 24 (firstn 24 (sizetest_bytes E))) = Ok (aw, ah) ->
  filter is_resize (fst (calibrate E player ws h))
    = (if (aw =? fst ws) && (ah =? snd ws) then []
       else [SetWindowSize (fst ws + (fst ws - aw)) (snd ws + (snd ws - ah))]) /\
  filter is_screenshot (fst (calibrate E player ws h))
    = [Screenshot player (sizetest_path E)].
Proof.
  intros Hq Hsize.
  unfold calibrate. change (sleep E 1) with (do_call E (Sleep 1)).
  unfold try_finally, bind, lift, do_call. rewrite Hsize.
  rewrite !Hq by reflexivity. cbn [fst snd].
  destruct (Z.eqb_spec aw (fst ws)) as [->|Hw].
  - destruct (Z.eqb_spec ah (snd ws)) as [->|Hh].
    + rewrite !Z.sub_diag. cbn.
      repeat (match goal with
              | |- context [raises E ?h ?c] => destruct (raises E h c)
              end); cbn; split; reflexivity.
    + assert (Hd : (snd ws - ah =? 0) = false) by (apply Z.eqb_neq; lia).
      rewrite Z.sub_diag, Hd. cbn. rewrite !Hq by reflexivity.
      repeat (match goal with
              | |- context [raises E ?h ?c] => destruct (raises E h c)
              end); cbn; split; reflexivity.
  - assert (Hd : (fst ws - aw =? 0) = false) by (apply Z.eqb_neq; lia).
    rewrite Hd. cbn. rewrite !Hq by reflexivity.
    repeat (match goal with
            | |- context [raises E ?h ?c] => destruct (raises E h c)
            end); cbn; split; reflexivity.
Qed.

Lemma calibrate_single_resize_witness :
  filter is_resize (fst (calibrate quiet (ById "player-teletorn") (1920, 1080) []))
    = [SetWindowSize 1935 1080] /\
  filter is_screenshot (fst (calibrate quiet (ById "player-teletorn") (1920, 1080) []))
    = [Screenshot (ById "player-teletorn") "/tmp/tmpk3v9/sizetest.png"].
Proof.
  apply (calibrate_single_resize quiet (ById "player-teletorn") (1920, 1080) [] 1905 1080);
    [intros; reflexivity | reflexivity].
Defined.

(** ** File names of uniform width *)

Lemma string_length_app (s1 s2 : string) :
  String.length (s1 ++ s2) = (String.length s1 + String.length s2)%nat.
Proof. induction s1 as [|c s1 IH]; cbn; [reflexivity | now rewrite IH]. Qed.

Lemma length_zeros (k : nat) : String.length (zeros k) = k.
Proof. induction k as [|k IH]; cbn; [reflexivity | now rewrite IH]. Qed.

Lemma enough_fuel_div10 (f : nat) (n : Z) :
  enough_fuel (S f) n -> 10 <= n -> enough_fuel f (n / 10).
Proof.
  intros [_ [Hn Hlt]] H10.
  rewrite Nat2Z.inj_succ, Z.pow_succ_r in Hlt by lia.
  assert (Hq : 0 <= n / 10) by (apply Z.div_pos; lia).
  assert (Hm : 10 * (n / 10) <= n) by (apply Z.mul_div_le; lia).
  destruct f as [|f].
  - cbn in Hlt. lia.
  - repeat split; lia.
Qed.

Lemma enough_fuel_str_nonneg (n : Z) :
  0 <= n -> enough_fuel (S (Z.to_nat (Z.log2 n))) n.
Proof.
  intros Hn. repeat split; try lia.
  rewrite Nat2Z.inj_succ, Z2Nat.id by apply Z.log2_nonneg.
  destruct (Z.eq_dec n 0) as [->|Hz]; [reflexivity|].
  apply Z.log2_spec. lia.
Qed.

Lemma str_nonneg_fuel_length_pos (f : nat) (n : Z) :
  (1 <= String.length (str_nonneg_fuel (S f) n))%nat.
Proof.
  cbn [str_nonneg_fuel]. destruct (n <? 10); cbn; [lia|].
  rewrite string_length_app. cbn. lia.
Qed.

Lemma str_nonneg_fuel_length_le (f1 : nat) :
  forall f2 i n,
    enough_fuel f1 i -> enough_fuel f2 n -> i <= n ->
    (String.length (str_nonneg_fuel f1 i) <= String.length (str_nonneg_fuel f2 n))%nat.
Proof.
  induction f1 as [|f1 IH]; intros f2 i n H1 H2 Hle.
  - destruct H1 as [H1 _]. lia.
  - destruct f2 as [|f2]; [destruct H2 as [H2 _]; lia|].
    cbn [str_nonneg_fuel].
    destruct (Z.ltb_spec i 10) as [Hi|Hi].
    + cbn [String.length]. apply (str_nonneg_fuel_length_pos f2 n).
    + destruct (Z.ltb_spec n 10) as [Hn|Hn]; [lia|].
      rewrite !string_length_app. cbn [String.length].
      apply Nat.add_le_mono_r, IH.
      * now apply enough_fuel_div10.
      * now apply enough_fuel_div10.
      * apply Z.div_le_mono; lia.
Qed.

Lemma str_nonneg_length_le (i n : Z) :
  0 <= i <= n ->
  (String.length (str_nonneg i) <= String.length (str_nonneg n))%nat.
Proof.
  intros H. apply str_nonneg_fuel_length_le;
    [apply enough_fuel_str_nonneg | apply enough_fuel_str_nonneg |]; lia.
Qed.

Lemma format_0d_length (width i : Z) :
  0 <= i -> Z.of_nat (String.length (str_nonneg i)) <= width ->
  Z.of_nat (String.length (format_0d width i)) = width.
Proof.
  intros Hi Hw. unfold format_0d.
  destruct (Z.ltb_spec i 0) as [?|_]; [lia|].
  rewrite Z.abs_eq by lia. cbn [String.length Nat.add append].
  rewrite string_length_app, length_zeros. lia.
Qed.


(** ** Durations written from a number *)

Lemma digits_value_from_app (s : string) (c : ascii) :
  forall acc,
    digits_value_from acc (s ++ String c EmptyString)
    = 10 * digits_value_from acc s + digit_value c.
Proof. induction s as [|d s IH]; intros acc; cbn; [reflexivity | apply IH]. Qed.

Lemma all_digits_app (s1 s2 : string) :
  all_digits (s1 ++ s2) = all_digits s1 && all_digits s2.
Proof.
  induction s1 as [|c s1 IH]; cbn; [reflexivity|].
  now rewrite IH, andb_assoc.
Qed.

Lemma digit_char_spec (d : Z) :
  0 <= d < 10 -> is_digit (digit_char d) = true /\ digit_value (digit_char d) = d.
Proof.
  intros Hd.
  assert (H : d = 0 \/ d = 1 \/ d = 2 \/ d = 3 \/ d = 4 \/ d = 5 \/ d = 6
              \/ d = 7 \/ d = 8 \/ d = 9) by lia.
  repeat (destruct H as [->|H]; [split; reflexivity|]). subst d. split; reflexivity.
Qed.

(** [str] of a natural number is a non-empty run of digits that [int]
    reads back. *)
Lemma str_nonneg_fuel_spec (f : nat) :
  forall n, enough_fuel f n ->
    all_digits (str_nonneg_fuel f n) = true /\
    digits_value (str_nonneg_fuel f n) = n /\
    str_nonneg_fuel f n <> EmptyString.
Proof.
  induction f as [|f IH]; intros n Hf; [destruct Hf as [Hf _]; lia|].
  cbn [str_nonneg_fuel]. destruct (Z.ltb_spec n 10) as [Hn|Hn].
  - destruct Hf as [_ [Hn0 _]].
    destruct (digit_char_spec n ltac:(lia)) as [Hd Hv].
    unfold digits_value. cbn [all_digits digits_value_from]. rewrite Hd, Hv.
    split; [reflexivity|]. split; [lia | discriminate].
  - destruct (IH (n / 10) (enough_fuel_div10 f n Hf Hn)) as [Ha [Hv Hne]].
    destruct (digit_char_spec (n mod 10) ltac:(apply Z.mod_pos_bound; lia)) as [Hd Hdv].
    unfold digits_value in *.
    rewrite all_digits_app, digits_value_from_app, Ha, Hv, Hdv.
    cbn [all_digits andb]. rewrite Hd.
    split; [reflexivity|]. split.
    + pose proof (Z.div_mod n 10 ltac:(lia)). lia.
    + destruct (str_nonneg_fuel f (n / 10)); discriminate.
Qed.

(** The tokens written from a number: [n] hours, minutes and seconds. *)
Lemma time2seconds_of_number (lim : nat) (n : Z) :
  0 <= n -> (lim = 0 \/ String.length (py_str n) <= lim)%nat ->
  time2seconds lim (py_str n ++ "h") = Ok (n * 3600) /\
  time2seconds lim (py_str n ++ "m") = Ok (n * 60) /\
  time2seconds lim (py_str n ++ "s") = Ok n /\
  time2seconds lim (py_str n) = Raise invalid_time_format.
Proof.
  intros Hn Hlim. unfold py_str in *.
  destruct (Z.ltb_spec n 0) as [?|_]; [lia|].
  destruct (str_nonneg_fuel_spec _ n (enough_fuel_str_nonneg n Hn)) as [Ha [Hv Hne]].
  fold (str_nonneg n) in Ha, Hv, Hne.
  unfold time2seconds.
  rewrite !re_match_duration_unit by (assumption || reflexivity).
  rewrite (re_match_duration_bare _ Ha), (py_int_within lim _ Hlim), Hv.
  repeat split; reflexivity.
Qed.


(** ** Count resolution: [int(args.time / args.interval)] *)

Lemma round_half_even_bounds (a b : Z) :
  0 < b ->
  a / b <= round_half_even a b <= a / b + 1 /\
  (round_half_even a b = a / b + 1 -> b <= 2 * (a mod b)).
Proof.
  intros Hb. unfold round_half_even.
  destruct (Z.ltb_spec (2 * (a mod b)) b); [lia|].
  destruct (Z.ltb_spec b (2 * (a mod b))); [lia|].
  destruct (Z.even (a / b)); lia.
Qed.

Lemma quotient_exponent_le (a b : Z) :
  0 < b -> quotient_exponent a b <= Z.log2 a.
Proof.
  intros Hb. unfold quotient_exponent.
  pose proof (Z.log2_nonneg b).
  destruct (_ <? _); lia.
Qed.

(** [b * 2^e <= a] for the exponent [e] of [a / b]. *)
Lemma quotient_exponent_lower (a b : Z) :
  0 < a -> 0 < b ->
  scale_den b (quotient_exponent a b) <= scale_num a (quotient_exponent a b).
Proof.
  intros Ha Hb. unfold quotient_exponent.
  set (e0 := Z.log2 a - Z.log2 b).
  destruct (Z.ltb_spec (scale_num a e0) (scale_den b e0)) as [Hlt|Hge]; [|exact Hge].
  clear Hlt.
  pose proof (Z.log2_spec a Ha) as [Hla _].
  pose proof (Z.log2_spec b Hb) as [_ Hlb].
  pose proof (Z.log2_nonneg a) as Hna. pose proof (Z.log2_nonneg b) as Hnb.
  unfold scale_den, scale_num.
  destruct (Z.ltb_spec (e0 - 1) 0) as [Hneg|Hpos].
  - assert (Hp : 2 ^ Z.succ (Z.log2 b) = 2 ^ Z.log2 a * 2 ^ (- (e0 - 1))).
    { rewrite <- Z.pow_add_r by lia. f_equal. lia. }
    assert (0 < 2 ^ (- (e0 - 1))) by (apply Z.pow_pos_nonneg; lia).
    nia.
  - assert (Hp : 2 ^ Z.log2 a = 2 ^ Z.succ (Z.log2 b) * 2 ^ (e0 - 1)).
    { rewrite <- Z.pow_add_r by lia. f_equal. lia. }
    assert (0 < 2 ^ (e0 - 1)) by (apply Z.pow_pos_nonneg; lia).
    nia.
Qed.

Lemma scale_num_nonpos (a s : Z) : s <= 0 -> scale_num a s = a * 2 ^ (- s).
Proof.
  intros Hs. unfold scale_num. destruct (Z.ltb_spec s 0); [reflexivity|].
  replace s with 0 by lia. cbn. lia.
Qed.

Lemma scale_den_nonpos (b s : Z) : s <= 0 -> scale_den b s = b.
Proof.
  intros Hs. unfold scale_den. destruct (Z.ltb_spec s 0); [reflexivity|].
  replace s with 0 by lia. cbn. lia.
Qed.

Lemma scale_num_nonneg (a s : Z) : 0 <= s -> scale_num a s = a.
Proof. intros Hs. unfold scale_num. destruct (Z.ltb_spec s 0); [lia | reflexivity]. Qed.

Lemma scale_den_nonneg (b s : Z) : 0 <= s -> scale_den b s = b * 2 ^ s.
Proof. intros Hs. unfold scale_den. destruct (Z.ltb_spec s 0); [lia | reflexivity]. Qed.

(** The rounded mantissa of [a / b] lies in the same integer interval as
    the quotient itself once [a] has at most 53 bits. *)
Lemma rounded_mantissa_bounds (a b : Z) :
  0 < a < 2 ^ 53 -> 0 < b ->
  let s := Z.max (quotient_exponent a b - 52) (-1074) in
  let m := round_half_even (scale_num a s) (scale_den b s) in
  s <= 0 /\ (a / b) * 2 ^ (- s) <= m < (a / b + 1) * 2 ^ (- s).
Proof.
  intros Ha Hb s m.
  assert (He : quotient_exponent a b <= 52).
  { pose proof (quotient_exponent_le a b Hb).
    assert (Z.log2 a < 53) by (apply Z.log2_lt_pow2; lia). lia. }
  pose proof (quotient_exponent_lower a b (proj1 Ha) Hb) as Hlow.
  assert (Hs : s <= 0) by (unfold s; lia).
  split; [exact Hs|].
  unfold m. rewrite (scale_num_nonpos a s Hs), (scale_den_nonpos b s Hs).
  set (T := 2 ^ (- s)).
  assert (HT : 0 < T) by (apply Z.pow_pos_nonneg; lia).
  set (k := a / b).
  assert (Hk : b * k <= a < b * (k + 1)).
  { unfold k. split; [apply Z.mul_div_le; lia | apply Z.mul_succ_div_gt; lia]. }
  assert (Hk0 : 0 <= k) by (apply Z.div_pos; lia).
  pose proof (round_half_even_bounds (a * T) b Hb) as [[Hr1 Hr2] Hr3].
  assert (Hq1 : k * T <= a * T / b) by (apply Z.div_le_lower_bound; nia).
  assert (Hq2 : a * T / b < (k + 1) * T) by (apply Z.div_lt_upper_bound; nia).
  split; [lia|].
  destruct (Z.eq_dec (round_half_even (a * T) b) (a * T / b + 1)) as [Hup|Hno]; [|lia].
  specialize (Hr3 Hup).
  destruct (Z.eq_dec (a * T / b + 1) ((k + 1) * T)) as [Htop|Hlt]; [|lia].
  exfalso.
  pose proof (Z.div_mod (a * T) b ltac:(lia)) as Hdm.
  assert (H2T : 2 * T * (b * (k + 1) - a) <= b) by nia.
  assert (H2Tb : 2 * T <= b) by nia.
  destruct (Z.max_spec (quotient_exponent a b - 52) (-1074)) as [[Hc Hmax]|[Hc Hmax]];
    fold s in Hmax.
  - (* the exponent is clamped at the subnormal one *)
    assert (HTbig : 2 ^ 53 <= T).
    { unfold T. apply Z.pow_le_mono_r; lia. }
    assert (k = 0) by (unfold k; apply Z.div_small; lia).
    subst k. nia.
  - set (e := quotient_exponent a b) in *.
    destruct (Z.ltb_spec e 0) as [Hneg|Hpos].
    + rewrite (scale_num_nonpos a e) in Hlow by lia.
      rewrite (scale_den_nonpos b e) in Hlow by lia.
      assert (HTe : T = 2 ^ 52 * 2 ^ (- e)).
      { unfold T. rewrite <- Z.pow_add_r by lia. f_equal. lia. }
      assert (0 < 2 ^ (- e)) by (apply Z.pow_pos_nonneg; lia).
      nia.
    + rewrite (scale_num_nonneg a e) in Hlow by lia.
      rewrite (scale_den_nonneg b e) in Hlow by lia.
      assert (HTe : T * 2 ^ e = 2 ^ 52).
      { unfold T. rewrite <- Z.pow_add_r by lia. f_equal. lia. }
      assert (0 < 2 ^ e) by (apply Z.pow_pos_nonneg; lia).
      nia.
Qed.

Lemma int_truediv_floor (a b : Z) :
  0 <= a < 2 ^ 53 -> 0 < b ->
  exists x, py_truediv a b = Ok x /\ py_int_of_float x = a / b.
Proof.
  intros Ha Hb. unfold py_truediv.
  destruct (Z.eqb_spec b 0) as [?|_]; [lia|].
  destruct (Z.ltb_spec a 0) as [?|_]; [lia|].
  destruct (Z.ltb_spec b 0) as [?|_]; [lia|].
  destruct (Z.eqb_spec a 0) as [->|Hnz].
  - eexists; split; [reflexivity|]. rewrite Zdiv_0_l. reflexivity.
  - rewrite (Z.abs_eq a), (Z.abs_eq b) by lia.
    destruct (rounded_mantissa_bounds a b ltac:(lia) Hb) as [Hs [Hm1 Hm2]].
    set (s := Z.max (quotient_exponent a b - 52) (-1074)) in *.
    set (m := round_half_even (scale_num a s) (scale_den b s)) in *.
    assert (HT : 0 < 2 ^ (- s)) by (apply Z.pow_pos_nonneg; lia).
    assert (Hk : 0 <= a / b <= a).
    { split; [apply Z.div_pos; lia|]. apply Z.div_le_upper_bound; nia. }
    rewrite (scale_num_nonneg m (- s)), (scale_den_nonneg 1 (- s)) by lia.
    rewrite (scale_den_nonneg 1 1024) by lia.
    destruct (Z.leb_spec (1 * 2 ^ 1024 * (1 * 2 ^ (- s))) m) as [Hov|_].
    + exfalso. assert (2 ^ 53 < 2 ^ 1024) by (apply Z.pow_lt_mono_r; lia). nia.
    + eexists; split; [reflexivity|].
      unfold py_int_of_float. cbn [fsign mant expo xorb].
      rewrite (scale_num_nonneg m (- s)), (scale_den_nonneg 1 (- s)) by lia.
      rewrite Z.mul_1_l. symmetry. apply Z.div_unique with (r := m - a / b * 2 ^ (- s)); lia.
Qed.

(** The division of the standard library's IEEE 754 model, at binary64,
    returns the same floats as [py_truediv] on these quotients. *)
Example py_truediv_agrees_with_SFdiv :
  SpecFloat.SFdiv 53 1024 (SpecFloat.S754_finite false 120 0)
    (SpecFloat.S754_finite false 30 0)
    = SpecFloat.S754_finite false 4503599627370496 (-50) /\
  py_truediv 120 30 = Ok (MkFloat false 4503599627370496 (-50)) /\
  SpecFloat.SFdiv 53 1024 (SpecFloat.S754_finite false 100 0)
    (SpecFloat.S754_finite false 30 0)
    = SpecFloat.S754_finite false 7505999378950827 (-51) /\
  py_truediv 100 30 = Ok (MkFloat false 7505999378950827 (-51)) /\
  SpecFloat.SFdiv 53 1024 (SpecFloat.S754_finite false 9007199254740993 0)
    (SpecFloat.S754_finite false 1 0)
    = SpecFloat.S754_finite false 4503599627370496 1 /\
  py_truediv 9007199254740993 1 = Ok (MkFloat false 4503599627370496 1).
Proof. repeat split; vm_compute; reflexivity. Qed.

(** C6 (as amended): when no count is given and the duration is [t]
    seconds, the count is [int(t / interval)], the float quotient cut
    toward zero; for [0 <= t < 2^53] and a positive interval this is
    [floor(t / interval)], and 120 seconds at an interval of 30 give 4. *)
Theorem resolve_num_screenshots_floor (a : args) (t : Z) :
  truthy_int (num_screenshots a) = false ->
  time a = Some t ->
  0 <= t < 2 ^ 53 -> 0 < interval a ->
  resolve_num_screenshots a = Ok (t / interval a).
Proof.
  intros Hn Ht Hrange Hi. unfold resolve_num_screenshots. rewrite Hn, Ht.
  destruct (int_truediv_floor t (interval a) Hrange Hi) as [x [Hx Hfloor]].
  rewrite Hx, Hfloor. now destruct (num_screenshots a).
Qed.

Lemma resolve_num_screenshots_floor_witness :
  resolve_num_screenshots
    (MkArgs None "teletorn" (1920, 1080) None 30 None (Some 120)) = Ok 4.
Proof.
  apply (resolve_num_screenshots_floor
           (MkArgs None "teletorn" (1920, 1080) None 30 None (Some 120)) 120);
    [reflexivity | reflexivity | cbn; lia | cbn; lia].
Defined.

(** C6, the claim as written fails: a duration of 2^53 + 1 seconds at an
    interval of one second resolves to 2^53 captures, one less than the
    floor of the quotient. *)
Lemma resolve_num_screenshots_rounds :
  resolve_num_screenshots
    (MkArgs None "teletorn" (1920, 1080) None 1 None (Some 9007199254740993))
  = Ok 9007199254740992 /\
  9007199254740993 / 1 = 9007199254740993 /\
  resolve_num_screenshots
    (MkArgs None "teletorn" (1920, 1080) None 1 None (Some 9007199254740993))
  <> Ok (9007199254740993 / 1).
Proof. repeat split. vm_compute. discriminate. Qed.

(** * Further properties of the program *)

(** ** [time2seconds]: what is accepted and what is raised *)

Lemma is_unit_not_digit (u : ascii) : is_unit u = true -> is_digit u = false.
Proof.
  unfold is_unit. intros Hu.
  repeat (apply orb_true_iff in Hu as [Hu|Hu]);
    apply Ascii.eqb_eq in Hu; subst u; reflexivity.
Qed.

Lemma span_digits_spec (s : string) :
  forall ds rest, span_digits s = (ds, rest) ->
    s = (ds ++ rest)%string /\ all_digits ds = true.
Proof.
  induction s as [|c s IH]; intros ds rest H; cbn in H.
  - inversion H; subst. split; reflexivity.
  - destruct (is_digit c) eqn:Hc.
    + destruct (span_digits s) as [ds' rest'] eqn:Hs. inversion H; subst.
      destruct (IH ds' rest eq_refl) as [-> Ha]. cbn. rewrite Hc, Ha. split; reflexivity.
    + inversion H; subst. split; reflexivity.
Qed.

Lemma re_match_duration_Some (s ds : string) (u : ascii) :
  re_match_duration s = Some (ds, u) -> duration_token s ds u.
Proof.
  unfold re_match_duration, duration_token. intros H.
  destruct (span_digits s) as [ds' rest] eqn:Hs.
  destruct (span_digits_spec s ds' rest Hs) as [-> Ha].
  destruct ds' as [|c ds']; [discriminate|].
  destruct rest as [|u' [|nl [|x rest]]]; try discriminate.
  - destruct (is_unit u') eqn:Hu; inversion H; subst.
    repeat split; [discriminate | exact Ha | exact Hu | now left].
  - destruct (is_unit u') eqn:Hu; cbn in H; [|discriminate].
    destruct (Ascii.eqb_spec nl "010"%char) as [->|]; inversion H; subst.
    repeat split; [discriminate | exact Ha | exact Hu | now right].
Qed.

Lemma re_match_duration_token (s ds : string) (u : ascii) :
  duration_token s ds u -> re_match_duration s = Some (ds, u).
Proof.
  intros (Hne & Ha & Hu & [->| ->]).
  - now apply re_match_duration_unit.
  - unfold re_match_duration.
    rewrite (span_digits_app ds _ u Ha (is_unit_not_digit u Hu)).
    destruct ds; [congruence|]. now rewrite Hu.
Qed.

Lemma py_int_Ok (lim : nat) (ds : string) (v : Z) :
  py_int lim ds = Ok v <->
  (lim = 0 \/ String.length ds <= lim)%nat /\ v = digits_value ds.
Proof.
  unfold py_int.
  destruct (Nat.ltb_spec 0 lim) as [Hl|Hl],
           (Nat.ltb_spec lim (String.length ds)) as [Hd|Hd]; cbn; split.
  all: try (intros Heq; inversion Heq; subst; split; [lia | reflexivity]).
  all: try (intros [_ ->]; reflexivity).
  - discriminate.
  - intros [[?|?] _]; lia.
Qed.

Lemma unit_branches (u : ascii) (number : Z) :
  (if (u =? "h")%char then Ok (number * 3600)
   else if (u =? "m")%char then Ok (number * 60) else Ok number)
  = Ok (number * unit_seconds u).
Proof.
  unfold unit_seconds. destruct (u =? "h")%char; [reflexivity|].
  destruct (u =? "m")%char; [reflexivity|]. now rewrite Z.mul_1_r.
Qed.

Lemma time2seconds_Ok_iff (lim : nat) (s : string) (v : Z) :
  time2seconds lim s = Ok v <->
  exists ds u, duration_token s ds u /\
    (lim = 0 \/ String.length ds <= lim)%nat /\
    v = digits_value ds * unit_seconds u.
Proof.
  unfold time2seconds. split.
  - destruct (re_match_duration s) as [[ds u]|] eqn:Hm; [|discriminate].
    destruct (py_int lim ds) as [number|e] eqn:Hi; [|discriminate].
    rewrite unit_branches. intros H; inversion H; subst.
    apply py_int_Ok in Hi as [Hl ->].
    exists ds, u. split; [now apply re_match_duration_Some|]. split; [exact Hl | reflexivity].
  - intros (ds & u & Htok & Hl & ->).
    rewrite (re_match_duration_token s ds u Htok), (py_int_within lim ds Hl).
    apply unit_branches.
Qed.


Lemma digit_value_range (c : ascii) : is_digit c = true -> 0 <= digit_value c <= 9.
Proof.
  unfold is_digit, digit_value. intros H. apply andb_true_iff in H as [H1 H2].
  apply Nat.leb_le in H1, H2. lia.
Qed.

Lemma digits_value_from_nonneg (s : string) :
  forall acc, 0 <= acc -> all_digits s = true -> 0 <= digits_value_from acc s.
Proof.
  induction s as [|c s IH]; intros acc Hacc Ha;
    cbn [digits_value_from all_digits] in *; [exact Hacc|].
  apply andb_true_iff in Ha as [Hc Ha]. pose proof (digit_value_range c Hc).
  apply IH; [lia | exact Ha].
Qed.

(** X2: a duration that [time2seconds] returns is never negative. *)
Theorem time2seconds_nonneg (lim : nat) (s : string) (v : Z) :
  time2seconds lim s = Ok v -> 0 <= v.
Proof.
  intros H. apply time2seconds_Ok_iff in H.
  destruct H as (ds & u & (_ & Ha & _) & _ & ->).
  apply Z.mul_nonneg_nonneg.
  - apply digits_value_from_nonneg; [lia | exact Ha].
  - unfold unit_seconds. destruct (u =? "h")%char; [lia|]. destruct (u =? "m")%char; lia.
Qed.

Lemma time2seconds_nonneg_witness : 0 <= 5400.
Proof. apply (time2seconds_nonneg 4300 "90m" 5400). reflexivity. Defined.


(** X3: one newline after the unit changes nothing, a second one makes the
    token invalid. *)
Theorem time2seconds_final_newline (lim : nat) (ds : string) (u : ascii) :
  ds <> EmptyString -> all_digits ds = true -> is_unit u = true ->
  time2seconds lim (ds ++ String u (String "010" EmptyString))
    = time2seconds lim (ds ++ String u EmptyString) /\
  time2seconds lim (ds ++ String u (String "010" (String "010" EmptyString)))
    = Raise invalid_time_format.
Proof.
  intros Hne Ha Hu. unfold time2seconds. split.
  - rewrite (re_match_duration_token _ ds u) by (repeat split; auto).
    rewrite (re_match_duration_token _ ds u) by (repeat split; auto).
    reflexivity.
  - unfold re_match_duration.
    rewrite (span_digits_app ds _ u Ha (is_unit_not_digit u Hu)).
    destruct ds; [congruence | reflexivity].
Qed.

Lemma time2seconds_final_newline_witness :
  time2seconds 4300 ("45" ++ String "s" (String "010" EmptyString))
    = time2seconds 4300 ("45" ++ String "s" EmptyString) /\
  time2seconds 4300 ("45" ++ String "s" (String "010" (String "010" EmptyString)))
    = Raise invalid_time_format.
Proof.
  apply (time2seconds_final_newline 4300 "45" "s"); [discriminate | reflexivity | reflexivity].
Defined.

(** X4: when the interpreter limits the digits of [int], a token whose run
    of digits is longer than the limit is reported as
    [ValueError('Invalid time format')] like any malformed token. *)
Theorem time2seconds_digit_limit (lim : nat) (ds : string) (u : ascii) :
  (0 < lim < String.length ds)%nat -> all_digits ds = true -> is_unit u = true ->
  time2seconds lim (ds ++ String u EmptyString) = Raise invalid_time_format.
Proof.
  intros Hl Ha Hu. unfold time2seconds.
  rewrite (re_match_duration_unit ds u) by (auto; intros ->; cbn in Hl; lia).
  unfold py_int.
  destruct (Nat.ltb_spec 0 lim); [|lia].
  destruct (Nat.ltb_spec lim (String.length ds)); [reflexivity | lia].
Qed.

Lemma time2seconds_digit_limit_witness :
  time2seconds 640 (zeros 641 ++ String "s" EmptyString) = Raise invalid_time_format.
Proof.
  apply (time2seconds_digit_limit 640 (zeros 641) "s");
    [vm_compute; lia | reflexivity | reflexivity].
Defined.

(** X5: written out with [str] and followed by h, m or s, a number [n] that
    is not negative comes back as [n] hours, minutes or seconds; written
    alone it is rejected. *)
Theorem time2seconds_str_round_trip (lim : nat) (n : Z) :
  0 <= n -> (lim = 0 \/ String.length (py_str n) <= lim)%nat ->
  time2seconds lim (py_str n ++ "h") = Ok (n * 3600) /\
  time2seconds lim (py_str n ++ "m") = Ok (n * 60) /\
  time2seconds lim (py_str n ++ "s") = Ok n /\
  time2seconds lim (py_str n) = Raise invalid_time_format.
Proof. apply time2seconds_of_number. Qed.

Lemma time2seconds_str_round_trip_witness :
  time2seconds 4300 (py_str 90 ++ "h") = Ok (90 * 3600) /\
  time2seconds 4300 (py_str 90 ++ "m") = Ok (90 * 60) /\
  time2seconds 4300 (py_str 90 ++ "s") = Ok 90 /\
  time2seconds 4300 (py_str 90) = Raise invalid_time_format.
Proof.
  apply (time2seconds_str_round_trip 4300 90);
    [lia | right; apply Nat.leb_le; vm_compute; reflexivity].
Defined.

(** ** [create_driver] and [choose_driver]: launches and outcomes *)

Lemma In_BROWSERS_listed (entry : string * capability) :
  In entry BROWSERS -> listed entry.
Proof. intros H. exact (proj1 (Forall_forall listed BROWSERS) BROWSERS_listed entry H). Qed.

(** X6: for a kind of the table, [create_driver] makes exactly one call:
    the launch of that kind's classes with the arguments [--headless] and
    [--window-size=W,H] and with the driver path it was given.  If the
    launch does not raise, the driver of that class is returned; if it
    raises, the exception leaves [create_driver] and no other launch is
    tried; an [IndexError] leaves it as
    [LookupError('No browser found: <kind>')]. *)
Theorem create_driver_single_launch (E : env) (entry : string * capability)
    (ws : Z * Z) (dp : option string) (h : trace) :
  In entry BROWSERS ->
  let c := Launch (snd entry)
             ["--headless"; "--window-size=" ++ py_str (fst ws) ++ "," ++ py_str (snd ws)]%string
             dp in
  create_driver E (fst entry) ws dp h =
    ([c],
     match raises E h c with
     | None => Ok (MkDriver (driverclass (snd entry)))
     | Some IndexError => Raise (LookupError ("No browser found: " ++ fst entry))
     | Some e => Raise e
     end).
Proof.
  intros Hin c. rewrite (create_driver_listed E entry ws dp h (In_BROWSERS_listed entry Hin)).
  unfold launch_of, launch_arguments. cbn [join_comma]. fold c.
  destruct (raises E h c) as [[]|]; reflexivity.
Qed.

Lemma create_driver_single_launch_witness :
  create_driver only_edge "firefox" (1920, 1080) (Some "/opt/geckodriver"%string) [] =
    ([Launch (MkCapability "webdriver.Firefox" "webdriver.FirefoxService"
                "webdriver.FirefoxOptions")
        ["--headless"; "--window-size=1920,1080"]%string (Some "/opt/geckodriver"%string)],
     Raise (WebDriverException "NoSuchDriverException")).
Proof.
  apply (create_driver_single_launch only_edge
           ("firefox"%string,
            MkCapability "webdriver.Firefox" "webdriver.FirefoxService"
              "webdriver.FirefoxOptions")
           (1920, 1080) (Some "/opt/geckodriver"%string) []).
  cbn. auto.
Defined.

Lemma choose_among_prefix (E : env) (ws : Z * Z) (entries : list (string * capability)) :
  Forall listed entries ->
  forall h, exists rest,
    map (launch_of ws None) entries
      = fst (choose_among E (map fst entries) ws h) ++ rest.
Proof.
  induction entries as [|x entries IH]; intros Hl h; [now exists []|].
  inversion Hl as [|? ? Hx Hl']; subst.
  cbn [map choose_among]. unfold try_except.
  rewrite (create_driver_listed E x ws None h Hx).
  destruct (raises E h (launch_of ws None x)) as [e|].
  - destruct (is_WebDriverException (create_driver_exn (fst x) e)).
    + destruct (IH Hl' (h ++ [launch_of ws None x])) as [rest Hr].
      destruct (choose_among E (map fst entries) ws (h ++ [launch_of ws None x])) as [t r].
      cbn [fst] in *. exists rest. cbn. now rewrite Hr.
    + now exists (map (launch_of ws None) entries).
  - now exists (map (launch_of ws None) entries).
Qed.

(** X7: whatever the browsers do, the launches that [choose_driver] makes
    are an initial part of the table taken in its order, each without a
    driver path: no kind is launched twice, none out of turn, and there
    are at most four launches. *)
Theorem choose_driver_launches_in_table_order (E : env) (ws : Z * Z) (h : trace) :
  (exists rest,
     map (launch_of ws None) BROWSERS = fst (choose_driver E ws h) ++ rest) /\
  (List.length (fst (choose_driver E ws h)) <= 4)%nat.
Proof.
  destruct (choose_among_prefix E ws BROWSERS BROWSERS_listed h) as [rest Hr].
  fold (choose_driver E ws h) in Hr. split; [now exists rest|].
  apply (f_equal (@List.length call)) in Hr.
  rewrite List.length_app, List.length_map in Hr.
  change (List.length BROWSERS) with 4%nat in Hr. lia.
Qed.

Lemma all_fail_launch_cons (E : env) (ws : Z * Z) (h : trace)
    (x : string * capability) (failed : list (string * capability)) (cls : string) :
  raises E h (launch_of ws None x) = Some (WebDriverException cls) ->
  all_fail_launch E ws (h ++ [launch_of ws None x]) failed ->
  all_fail_launch E ws h (x :: failed).
Proof.
  intros Hx Hf pre y post Heq. destruct pre as [|p pre]; cbn in Heq.
  - inversion Heq; subst. exists cls. cbn. now rewrite app_nil_r.
  - inversion Heq; subst. destruct (Hf pre y post eq_refl) as [cls' Hc].
    exists cls'. cbn. now rewrite <- app_assoc in Hc.
Qed.

Lemma choose_among_Ok (E : env) (ws : Z * Z) (entries : list (string * capability)) :
  Forall listed entries ->
  forall h t d,
    choose_among E (map fst entries) ws h = (t, Ok d) ->
    exists failed x rest,
      entries = failed ++ x :: rest /\
      all_fail_launch E ws h failed /\
      raises E (h ++ map (launch_of ws None) failed) (launch_of ws None x) = None /\
      d = driver_of x /\
      t = map (launch_of ws None) (failed ++ [x]).
Proof.
  induction entries as [|y entries IH]; intros Hl h t d H; [discriminate|].
  inversion Hl as [|? ? Hy Hl']; subst.
  cbn [map choose_among] in H. unfold try_except in H.
  rewrite (create_driver_listed E y ws None h Hy) in H.
  destruct (raises E h (launch_of ws None y)) as [e|] eqn:Hr.
  - destruct e; cbn in H; try discriminate.
    destruct (choose_among E (map fst entries) ws (h ++ [launch_of ws None y]))
      as [t' r'] eqn:Hrec.
    inversion H; subst.
    destruct (IH Hl' _ _ _ Hrec) as (failed & x & rest & -> & Hf & Hx & -> & ->).
    exists (y :: failed), x, rest. repeat split.
    + eapply all_fail_launch_cons; eassumption.
    + cbn. now rewrite <- app_assoc in Hx.
  - inversion H; subst. exists [], y, entries. repeat split.
    + intros pre x post Heq. destruct pre; discriminate.
    + cbn. now rewrite app_nil_r.
Qed.

Lemma choose_among_not_WebDriverException (E : env) (ws : Z * Z) (kinds : list string) :
  forall h cls, snd (choose_among E kinds ws h) <> Raise (WebDriverException cls).
Proof.
  induction kinds as [|k kinds IH]; intros h cls; [discriminate|].
  cbn [choose_among]. unfold try_except.
  destruct (create_driver E k ws None h) as [t [d|e]]; [discriminate|].
  destruct (is_WebDriverException e) eqn:He.
  - specialize (IH (h ++ t) cls).
    destruct (choose_among E kinds ws (h ++ t)) as [t' r']. exact IH.
  - cbn. intros Heq. inversion Heq; subst. discriminate.
Qed.

(** X8: a driver that [choose_driver] returns is the one of the first
    candidate of the table whose launch did not raise: every candidate
    before it was launched and raised a [WebDriverException], and its own
    launch is the last call.  And [choose_driver] never ends with a
    [WebDriverException]. *)
Theorem choose_driver_outcome (E : env) (ws : Z * Z) (h : trace) :
  (forall t d,
     choose_driver E ws h = (t, Ok d) ->
     exists failed x rest,
       BROWSERS = failed ++ x :: rest /\
       all_fail_launch E ws h failed /\
       raises E (h ++ map (launch_of ws None) failed) (launch_of ws None x) = None /\
       d = driver_of x /\
       t = map (launch_of ws None) (failed ++ [x])) /\
  (forall cls, snd (choose_driver E ws h) <> Raise (WebDriverException cls)).
Proof.
  split.
  - intros t d H. exact (choose_among_Ok E ws BROWSERS BROWSERS_listed h t d H).
  - apply choose_among_not_WebDriverException.
Qed.

Lemma choose_driver_outcome_witness :
  exists failed x rest,
    BROWSERS = failed ++ x :: rest /\
    all_fail_launch only_edge (1920, 1080) [] failed /\
    raises only_edge ([] ++ map (launch_of (1920, 1080) None) failed)
      (launch_of (1920, 1080) None x) = None /\
    MkDriver "webdriver.Edge" = driver_of x /\
    map (launch_of (1920, 1080) None) (firstn 3 BROWSERS)
      = map (launch_of (1920, 1080) None) (failed ++ [x]).
Proof.
  apply (proj1 (choose_driver_outcome only_edge (1920, 1080) [])). reflexivity.
Defined.

(** ** The calibration block: the header, the scratch files, the resize *)

Lemma byte_value_byte_of (x : Z) : 0 <= x < 256 -> byte_value (byte_of x) = x.
Proof.
  intros Hx. unfold byte_value, byte_of.
  destruct (Byte.of_N (Z.to_N x)) as [b|] eqn:Hb.
  - rewrite (Byte.to_of_N _ Hb). lia.
  - apply Byte.of_N_None_iff in Hb. lia.
Qed.

Lemma int32_be_be32 (n : Z) :
  - 2 ^ 31 <= n < 2 ^ 31 ->
  int32_be (byte_of (n / 2 ^ 24 mod 256)) (byte_of (n / 2 ^ 16 mod 256))
           (byte_of (n / 2 ^ 8 mod 256)) (byte_of (n mod 256)) = n.
Proof.
  intros Hn. unfold int32_be.
  rewrite !byte_value_byte_of by (apply Z.mod_pos_bound; lia).
  change (2 ^ 24) with 16777216. change (2 ^ 16) with 65536. change (2 ^ 8) with 256.
  change (2 ^ 31) with 2147483648 in *. change (2 ^ 32) with 4294967296.
  pose proof (Z.div_mod n 256 ltac:(lia)).
  pose proof (Z.mod_pos_bound n 256 ltac:(lia)).
  pose proof (Z.div_mod (n / 256) 256 ltac:(lia)).
  pose proof (Z.mod_pos_bound (n / 256) 256 ltac:(lia)).
  pose proof (Z.div_mod (n / 256 / 256) 256 ltac:(lia)).
  pose proof (Z.mod_pos_bound (n / 256 / 256) 256 ltac:(lia)).
  pose proof (Z.div_mod (n / 256 / 256 / 256) 256 ltac:(lia)).
  pose proof (Z.mod_pos_bound (n / 256 / 256 / 256) 256 ltac:(lia)).
  replace (n / 65536) with (n / 256 / 256) by (rewrite Z.div_div by lia; reflexivity).
  replace (n / 16777216) with (n / 256 / 256 / 256) by (rewrite !Z.div_div by lia; reflexivity).
  destruct (Z.ltb_spec
    (((n / 256 / 256 / 256 mod 256 * 256 + n / 256 / 256 mod 256) * 256
      + n / 256 mod 256) * 256 + n mod 256) 2147483648); lia.
Qed.

(** X9: the size that the calibration reads is the pair of big-endian
    32-bit fields at bytes 16 to 23 of the screenshot file: for a file
    that holds the width [w] and the height [h] there, as a PNG file does
    after its signature and the head of its first chunk, the size read is
    [(w, h)], whatever follows in the file. *)
Theorem unpack_png_header (prefix rest : list byte) (w h : Z) :
  List.length prefix = 16%nat ->
  - 2 ^ 31 <= w < 2 ^ 31 -> - 2 ^ 31 <= h < 2 ^ 31 ->
  unpack_ii (slice 16 24 (firstn 24 (prefix ++ be32 w ++ be32 h ++ rest))) = Ok (w, h).
Proof.
  intros Hp Hw Hh.
  do 17 (destruct prefix as [|? prefix]; try discriminate).
  cbn [app firstn slice skipn Nat.sub be32 unpack_ii].
  now rewrite (int32_be_be32 w Hw), (int32_be_be32 h Hh).
Qed.

Lemma unpack_png_header_witness :
  unpack_ii (slice 16 24 (firstn 24 (firstn 16 png_1905x1080 ++ be32 1905 ++ be32 1080 ++ [x08; x06])))
  = Ok (1905, 1080).
Proof.
  apply (unpack_png_header (firstn 16 png_1905x1080) [x08; x06] 1905 1080);
    [reflexivity | lia | lia].
Defined.

Lemma unpack_ii_length (bs : list byte) (v : Z * Z) :
  unpack_ii bs = Ok v -> List.length bs = 8%nat.
Proof.
  do 9 (destruct bs as [|? bs]; try discriminate). reflexivity.
Qed.

Lemma unpack_short_file (bs : list byte) :
  (List.length bs < 24)%nat ->
  unpack_ii (slice 16 24 (firstn 24 bs)) = Raise StructError.
Proof.
  intros Hlen.
  destruct (unpack_ii (slice 16 24 (firstn 24 bs))) as [v|e] eqn:Hu.
  - apply unpack_ii_length in Hu. unfold slice in Hu.
    rewrite List.length_firstn, List.length_skipn, List.length_firstn in Hu. lia.
  - revert Hu. generalize (slice 16 24 (firstn 24 bs)). intros l.
    do 9 (destruct l as [|? l]; try (intros Hu; inversion Hu; reflexivity)).
Qed.

(** X10: when the screenshot file is shorter than 24 bytes and no call
    raises, the calibration ends with [struct.error] after the read: the
    window is not resized, the file is closed and the scratch directory
    removed. *)
Theorem calibrate_short_file (E : env) (player : element) (ws : Z * Z) (h : trace) :
  (List.length (sizetest_bytes E) < 24)%nat ->
  (forall h' c, raises E h' c = None) ->
  calibrate E player ws h =
    ([TemporaryDirectory; Screenshot player (sizetest_path E);
      OpenRead (sizetest_path E); Read 24; CloseFile (sizetest_path E);
      CleanupTemporaryDirectory (tmpdir_name E)],
     Raise StructError).
Proof.
  intros Hlen Hq. unfold calibrate, try_finally, bind, lift, do_call.
  rewrite (unpack_short_file _ Hlen), !Hq. reflexivity.
Qed.

Lemma calibrate_short_file_witness :
  calibrate empty_screenshot (ById "player-teletorn") (1920, 1080) [] =
    ([TemporaryDirectory; Screenshot (ById "player-teletorn") (sizetest_path empty_screenshot);
      OpenRead (sizetest_path empty_screenshot); Read 24;
      CloseFile (sizetest_path empty_screenshot);
      CleanupTemporaryDirectory (tmpdir_name empty_screenshot)],
     Raise StructError).
Proof.
  apply (calibrate_short_file empty_screenshot (ById "player-teletorn") (1920, 1080) []);
    [cbn; lia | reflexivity].
Defined.

Ltac destruct_raises E :=
  repeat match goal with
         | |- context [raises E ?h ?c] => destruct (raises E h c) eqn:?
         end.

(** X11: the calibration releases what it takes, however it ends: once the
    scratch directory was created, its removal is the last call; and once
    the file was opened (the read is attempted), the file is closed. *)
Theorem calibrate_releases (E : env) (player : element) (ws : Z * Z) (h : trace) :
  (raises E h TemporaryDirectory = None ->
   last (fst (calibrate E player ws h)) TemporaryDirectory
     = CleanupTemporaryDirectory (tmpdir_name E)) /\
  (In (Read 24) (fst (calibrate E player ws h)) ->
   In (CloseFile (sizetest_path E)) (fst (calibrate E player ws h))).
Proof.
  unfold calibrate. change (sleep E 1) with (do_call E (Sleep 1)).
  unfold try_finally, bind, lift, do_call.
  destruct (unpack_ii (slice 16 24 (firstn 24 (sizetest_bytes E)))) as [[aw ah]|e];
    cbn [fst snd];
    try destruct (negb (fst ws - aw =? 0) || negb (snd ws - ah =? 0));
    destruct_raises E; cbn; split; intros; try discriminate; try tauto; try congruence;
    repeat (match goal with H : _ \/ _ |- _ => destruct H end); try discriminate; tauto.
Qed.

Lemma calibrate_releases_witness :
  last (fst (calibrate quiet (ById "player-teletorn") (1920, 1080) [])) TemporaryDirectory
    = CleanupTemporaryDirectory (tmpdir_name quiet) /\
  In (CloseFile (sizetest_path quiet))
     (fst (calibrate quiet (ById "player-teletorn") (1920, 1080) [])).
Proof.
  destruct (calibrate_releases quiet (ById "player-teletorn") (1920, 1080) []) as [H1 H2].
  split; [apply H1; reflexivity | apply H2; cbn; tauto].
Defined.

(** X12: in every environment the calibration takes at most one screenshot
    and resizes the window at most once. *)
Theorem calibrate_at_most_once (E : env) (player : element) (ws : Z * Z) (h : trace) :
  (List.length (filter is_screenshot (fst (calibrate E player ws h))) <= 1)%nat /\
  (List.length (filter is_resize (fst (calibrate E player ws h))) <= 1)%nat.
Proof.
  unfold calibrate. change (sleep E 1) with (do_call E (Sleep 1)).
  unfold try_finally, bind, lift, do_call.
  destruct (unpack_ii (slice 16 24 (firstn 24 (sizetest_bytes E)))) as [[aw ah]|e];
    cbn [fst snd];
    try destruct (negb (fst ws - aw =? 0) || negb (snd ws - ah =? 0));
    destruct_raises E; cbn; split; lia.
Qed.

(** ** File names: reading back, distinctness and order *)

Lemma digits_value_from_app_gen (x y : string) :
  forall acc, digits_value_from acc (x ++ y) = digits_value_from (digits_value_from acc x) y.
Proof. induction x as [|c x IH]; intros acc; cbn; [reflexivity | apply IH]. Qed.

Lemma digits_value_from_inj (s : string) :
  forall a b, digits_value_from a s = digits_value_from b s -> a = b.
Proof.
  induction s as [|c s IH]; intros a b H; cbn [digits_value_from] in H; [exact H|].
  apply IH in H. lia.
Qed.

Lemma digits_value_from_zeros (k : nat) : digits_value_from 0 (zeros k) = 0.
Proof. induction k as [|k IH]; cbn; [reflexivity | exact IH]. Qed.

Lemma all_digits_zeros (k : nat) : all_digits (zeros k) = true.
Proof. induction k as [|k IH]; cbn; [reflexivity | exact IH]. Qed.

Lemma str_nonneg_spec (n : Z) :
  0 <= n -> all_digits (str_nonneg n) = true /\ digits_value (str_nonneg n) = n.
Proof.
  intros Hn.
  destruct (str_nonneg_fuel_spec _ n (enough_fuel_str_nonneg n Hn)) as [Ha [Hv _]].
  split; assumption.
Qed.

Lemma format_0d_spec (width i : Z) :
  0 <= i -> all_digits (format_0d width i) = true /\ digits_value (format_0d width i) = i.
Proof.
  intros Hi. unfold format_0d.
  destruct (Z.ltb_spec i 0) as [?|_]; [lia|].
  rewrite Z.abs_eq by lia. cbn [append].
  destruct (str_nonneg_spec i Hi) as [Ha Hv].
  split.
  - now rewrite all_digits_app, all_digits_zeros, Ha.
  - unfold digits_value in *.
    now rewrite digits_value_from_app_gen, digits_value_from_zeros.
Qed.

(** X13: the padded index of a file name reads back as the index: for an
    index that is not negative, whatever the width, the text before ".png"
    consists of digits only and its value is the index. *)
Theorem screenshot_name_reads_back (digits i : Z) :
  0 <= i ->
  exists stem,
    screenshot_name digits i = (stem ++ ".png")%string /\
    all_digits stem = true /\ digits_value stem = i.
Proof.
  intros Hi. exists (format_0d digits i).
  destruct (format_0d_spec digits i Hi) as [Ha Hv]. repeat split; assumption.
Qed.

Lemma screenshot_name_reads_back_witness :
  exists stem,
    screenshot_name 3 7 = (stem ++ ".png")%string /\
    all_digits stem = true /\ digits_value stem = 7.
Proof. apply (screenshot_name_reads_back 3 7). lia. Defined.

Lemma string_app_inv_head (a x y : string) : (a ++ x = a ++ y)%string -> x = y.
Proof. induction a as [|c a IH]; cbn; intros H; [exact H | inversion H; auto]. Qed.

(** X14: two different indices never give the same file: for indices that
    are not negative, equal paths in the same directory mean equal
    indices, so no capture of a run overwrites another. *)
Theorem screenshot_path_injective (dir : string) (digits i j : Z) :
  0 <= i -> 0 <= j ->
  screenshot_path dir digits i = screenshot_path dir digits j -> i = j.
Proof.
  intros Hi Hj H. unfold screenshot_path, path_join, screenshot_name in H.
  apply string_app_inv_head in H. apply string_app_inv_head in H.
  apply (f_equal digits_value) in H. unfold digits_value in H.
  rewrite !digits_value_from_app_gen in H. apply digits_value_from_inj in H.
  destruct (format_0d_spec digits i Hi) as [_ Hvi].
  destruct (format_0d_spec digits j Hj) as [_ Hvj].
  unfold digits_value in *. congruence.
Qed.

Lemma screenshot_path_injective_witness : 7 = 7.
Proof.
  apply (screenshot_path_injective "teletorn_20240101_1200" 2 7 7); [lia | lia | reflexivity].
Defined.

Lemma string_compare_app_head (a x y : string) :
  String.compare (a ++ x) (a ++ y) = String.compare x y.
Proof.
  induction a as [|c a IH]; cbn; [reflexivity|].
  unfold Ascii.compare. now rewrite N.compare_refl.
Qed.

Lemma string_compare_app_tail (s : string) (x : string) :
  forall y, String.length x = String.length y ->
    String.compare x y = Lt -> String.compare (x ++ s) (y ++ s) = Lt.
Proof.
  induction x as [|c x IH]; intros [|d y] Hlen H; cbn in *; try discriminate.
  destruct (Ascii.compare c d); try discriminate; [|reflexivity].
  apply IH; [lia | exact H].
Qed.

Lemma digits_value_from_shift (s : string) :
  forall acc,
    digits_value_from acc s
    = acc * 10 ^ Z.of_nat (String.length s) + digits_value_from 0 s.
Proof.
  induction s as [|c s IH]; intros acc; cbn [digits_value_from String.length].
  - cbn. lia.
  - rewrite IH, (IH (10 * 0 + digit_value c)).
    rewrite Nat2Z.inj_succ, Z.pow_succ_r by lia. lia.
Qed.

Lemma digits_value_bound (s : string) :
  all_digits s = true -> 0 <= digits_value_from 0 s < 10 ^ Z.of_nat (String.length s).
Proof.
  induction s as [|c s IH]; intros Ha; cbn [digits_value_from String.length all_digits] in *.
  - cbn. lia.
  - apply andb_true_iff in Ha as [Hc Ha]. specialize (IH Ha).
    pose proof (digit_value_range c Hc).
    rewrite digits_value_from_shift, Nat2Z.inj_succ, Z.pow_succ_r by lia. nia.
Qed.

Lemma digit_compare (c d : ascii) :
  digit_value c < digit_value d -> Ascii.compare c d = Lt.
Proof.
  unfold digit_value, Ascii.compare, nat_of_ascii. intros H.
  apply N.compare_lt_iff. lia.
Qed.

Lemma digit_value_inj (c d : ascii) : digit_value c = digit_value d -> c = d.
Proof.
  unfold digit_value. intros H.
  rewrite <- (ascii_nat_embedding c), <- (ascii_nat_embedding d). f_equal. lia.
Qed.

(** Digit runs of one length compare as texts the way their values compare
    as numbers. *)
Lemma digits_compare_lt (x : string) :
  forall y, String.length x = String.length y ->
    all_digits x = true -> all_digits y = true ->
    digits_value x < digits_value y -> String.compare x y = Lt.
Proof.
  unfold digits_value.
  induction x as [|c x IH]; intros [|d y] Hlen Hx Hy Hlt;
    cbn [String.length all_digits digits_value_from] in *;
    try (exfalso; lia).
  apply andb_true_iff in Hx as [Hc Hx]. apply andb_true_iff in Hy as [Hd Hy].
  rewrite (digits_value_from_shift x), (digits_value_from_shift y) in Hlt.
  pose proof (digits_value_bound x Hx) as Bx. pose proof (digits_value_bound y Hy) as By'.
  assert (Hl : String.length x = String.length y) by lia. rewrite Hl in Hlt, Bx.
  pose proof (digit_value_range c Hc). pose proof (digit_value_range d Hd).
  cbn [String.compare].
  destruct (Z.lt_trichotomy (digit_value c) (digit_value d)) as [Hcd|[Hcd|Hcd]].
  - now rewrite (digit_compare c d Hcd).
  - apply digit_value_inj in Hcd. subst d.
    unfold Ascii.compare at 1. rewrite N.compare_refl.
    apply IH; [exact Hl | exact Hx | exact Hy | lia].
  - exfalso. nia.
Qed.

(** X15: within one run the paths sort as texts in the order of the
    captures: for a positive count and two indices [i < j] below it, the
    path of capture [i] is strictly before the path of capture [j] in the
    character-by-character order, so a listing of the directory sorted by
    name is in capture order. *)
Theorem screenshot_paths_sorted (dir : string) (count i j : Z) :
  0 < count -> 0 <= i -> i < j -> j < count ->
  String.compare (screenshot_path dir (digits_of count) i)
                 (screenshot_path dir (digits_of count) j) = Lt.
Proof.
  intros Hc Hi Hij Hj. unfold screenshot_path, path_join, screenshot_name.
  rewrite !string_compare_app_head.
  assert (Hw : forall k, 0 <= k < count ->
             Z.of_nat (String.length (format_0d (digits_of count) k)) = digits_of count).
  { intros k Hk. apply format_0d_length; [lia|]. unfold digits_of, py_str.
    destruct (Z.ltb_spec count 0) as [?|_]; [lia|].
    apply inj_le, str_nonneg_length_le. lia. }
  pose proof (Hw i ltac:(lia)) as Hwi. pose proof (Hw j ltac:(lia)) as Hwj.
  destruct (format_0d_spec (digits_of count) i Hi) as [Hai Hvi].
  destruct (format_0d_spec (digits_of count) j ltac:(lia)) as [Haj Hvj].
  apply string_compare_app_tail; [lia|].
  apply digits_compare_lt; [lia | exact Hai | exact Haj | lia].
Qed.

Lemma screenshot_paths_sorted_witness :
  String.compare (screenshot_path "teletorn_20240101_1200" (digits_of 12) 9)
                 (screenshot_path "teletorn_20240101_1200" (digits_of 12) 10) = Lt.
Proof.
  apply (screenshot_paths_sorted "teletorn_20240101_1200" 12 9 10); lia.
Defined.

(** ** The capture loop: empty runs, failures and totals *)

Lemma py_range_nonpos (num : Z) : num <= 0 -> py_range num = [].
Proof.
  intros H. unfold py_range. replace (Z.to_nat num) with 0%nat by lia. reflexivity.
Qed.

Lemma py_range_length (num : Z) : List.length (py_range num) = Z.to_nat num.
Proof. unfold py_range. now rewrite List.length_map, List.length_seq. Qed.

Lemma py_range_split (num k : Z) :
  0 <= k < num ->
  exists rest, py_range num = py_range k ++ k :: rest.
Proof.
  intros Hk. unfold py_range.
  replace (Z.to_nat num) with (Z.to_nat k + S (Z.to_nat num - S (Z.to_nat k)))%nat by lia.
  rewrite seq_app, map_app. cbn [seq map Nat.add].
  rewrite Z2Nat.id by lia. eexists. reflexivity.
Qed.

Lemma for_each_app {A : Type} (body : A -> M unit) (xs ys : list A) :
  forall h,
    for_each (xs ++ ys) body h =
      match for_each xs body h with
      | (t1, Ok _) =>
          (t1 ++ fst (for_each ys body (h ++ t1)), snd (for_each ys body (h ++ t1)))
      | (t1, Raise e) => (t1, Raise e)
      end.
Proof.
  induction xs as [|x xs IH]; intros h; cbn [app for_each].
  - unfold ret. rewrite app_nil_r. now destruct (for_each ys body h).
  - unfold bind. destruct (body x h) as [t [[]|e]]; [|reflexivity].
    rewrite IH. destruct (for_each xs body (h ++ t)) as [t1 [[]|e1]]; [|reflexivity].
    now rewrite <- !app_assoc.
Qed.

Lemma record_captures_resolved (E : env) (a : args) (h : trace) :
  dir_exists E (screenshots_dir_of E a) = false ->
  raises E h (Mkdir (screenshots_dir_of E a)) = None ->
  record_captures E a h =
    match resolve_num_screenshots a with
    | Raise e => ([Mkdir (screenshots_dir_of E a)], Raise e)
    | Ok num =>
        (Mkdir (screenshots_dir_of E a)
           :: fst (capture_loop E (player_of a) (screenshots_dir_of E a) (interval a) num
                     (h ++ [Mkdir (screenshots_dir_of E a)])),
         snd (capture_loop E (player_of a) (screenshots_dir_of E a) (interval a) num
                (h ++ [Mkdir (screenshots_dir_of E a)])))
    end.
Proof.
  intros Hd Hm. unfold record_captures, bind, mkdir, lift. rewrite Hd, Hm.
  destruct (resolve_num_screenshots a) as [num|e]; [|reflexivity].
  rewrite app_nil_r.
  now destruct (capture_loop E (player_of a) (screenshots_dir_of E a) (interval a) num
                  (h ++ [Mkdir (screenshots_dir_of E a)])).
Qed.

(** X16: the output directory is created before the count is known, so
    these runs leave an empty directory behind: with no usable count (absent
    or 0) and no duration the count fails with [TypeError]; with a duration
    and an interval of 0 it fails with [ZeroDivisionError]; with a negative
    count, or a duration shorter than the interval, the loop makes no call
    and ends normally. *)
Theorem record_captures_without_captures (E : env) (a : args) (h : trace) :
  dir_exists E (screenshots_dir_of E a) = false ->
  raises E h (Mkdir (screenshots_dir_of E a)) = None ->
  (truthy_int (num_screenshots a) = false -> time a = None ->
   record_captures E a h = ([Mkdir (screenshots_dir_of E a)], Raise TypeError)) /\
  (forall t, truthy_int (num_screenshots a) = false -> time a = Some t ->
   interval a = 0 ->
   record_captures E a h = ([Mkdir (screenshots_dir_of E a)], Raise ZeroDivisionError)) /\
  (forall n, num_screenshots a = Some n -> n < 0 ->
   record_captures E a h = ([Mkdir (screenshots_dir_of E a)], Ok tt)) /\
  (forall t, truthy_int (num_screenshots a) = false -> time a = Some t ->
   0 <= t < interval a -> t < 2 ^ 53 ->
   record_captures E a h = ([Mkdir (screenshots_dir_of E a)], Ok tt)).
Proof.
  intros Hd Hm. rewrite (record_captures_resolved E a h Hd Hm).
  repeat split.
  - intros Hn Ht. unfold resolve_num_screenshots. rewrite Hn, Ht.
    now destruct (num_screenshots a).
  - intros t Hn Ht Hi. unfold resolve_num_screenshots. rewrite Hn, Ht, Hi.
    unfold py_truediv. cbn. now destruct (num_screenshots a).
  - intros n Hn Hneg. unfold resolve_num_screenshots, truthy_int. rewrite Hn.
    destruct (Z.eqb_spec n 0) as [?|_]; [lia|]. cbn [negb].
    unfold capture_loop. rewrite (py_range_nonpos n) by lia. reflexivity.
  - intros t Hn Ht Hlt Hb. unfold resolve_num_screenshots. rewrite Hn, Ht.
    destruct (int_truediv_floor t (interval a) ltac:(lia) ltac:(lia)) as [x [Hx Hf]].
    rewrite Hx, Hf, (Z.div_small t (interval a)) by lia.
    destruct (num_screenshots a); reflexivity.
Qed.

Lemma record_captures_without_captures_witness :
  record_captures quiet (MkArgs None "teletorn" (1920, 1080) None 30 (Some (-3)) None) []
  = ([Mkdir "teletorn_20240101_1200"], Ok tt).
Proof.
  destruct (record_captures_without_captures quiet
              (MkArgs None "teletorn" (1920, 1080) None 30 (Some (-3)) None) []
              eq_refl eq_refl) as (_ & _ & H & _).
  apply (H (-3)); [reflexivity | lia].
Defined.

(** X17: with a negative interval and at least one capture to take, the
    first screenshot is taken and reported, then [time.sleep] raises before
    any pause and the loop ends there: with [ValueError] for an interval
    down to [-sleep_max], with [OverflowError] below it. *)
Theorem capture_loop_negative_interval (E : env) (player : element) (dir : string)
    (secs num : Z) (h : trace) :
  secs < 0 -> 1 <= num ->
  let path := screenshot_path dir (digits_of num) 0 in
  raises E h (Screenshot player path) = None ->
  raises E (h ++ [Screenshot player path]) (Print ("Saved " ++ path)) = None ->
  capture_loop E player dir secs num h
    = ([Screenshot player path; Print ("Saved " ++ path)],
       Raise (if secs <? - sleep_max then OverflowError else negative_sleep)).
Proof.
  intros Hs Hn path H1 H2. unfold capture_loop.
  destruct (py_range_split num 0 ltac:(lia)) as [rest ->].
  rewrite (py_range_nonpos 0) by lia. cbn [app for_each].
  unfold bind at 1. unfold capture_once, bind, do_call, sleep. fold path.
  rewrite H1, H2.
  destruct (Z.ltb_spec sleep_max secs) as [?|_]; [unfold sleep_max in *; lia|].
  rewrite orb_false_r.
  destruct (secs <? - sleep_max); [reflexivity|].
  destruct (Z.ltb_spec secs 0) as [_|?]; [reflexivity | lia].
Qed.

Lemma capture_loop_negative_interval_witness :
  capture_loop quiet (ById "player-teletorn") "teletorn_20240101_1200" (-5) 4 []
  = ([Screenshot (ById "player-teletorn") "teletorn_20240101_1200/0.png";
      Print "Saved teletorn_20240101_1200/0.png"],
     Raise negative_sleep).
Proof.
  apply (capture_loop_negative_interval quiet (ById "player-teletorn")
           "teletorn_20240101_1200" (-5) 4 []); [lia | lia | reflexivity | reflexivity].
Defined.

Lemma capture_loop_negative_interval_overflow :
  capture_loop quiet (ById "player-teletorn") "teletorn_20240101_1200" (-9223372037) 4 []
  = ([Screenshot (ById "player-teletorn") "teletorn_20240101_1200/0.png";
      Print "Saved teletorn_20240101_1200/0.png"],
     Raise OverflowError).
Proof. reflexivity. Qed.

(** An interval above [sleep_max] ends the loop in the same way, although
    no call of the environment raises. *)
Lemma capture_loop_interval_too_long :
  capture_loop quiet (ById "player-teletorn") "teletorn_20240101_1200" 9223372037 4 []
  = ([Screenshot (ById "player-teletorn") "teletorn_20240101_1200/0.png";
      Print "Saved teletorn_20240101_1200/0.png"],
     Raise OverflowError).
Proof. reflexivity. Qed.

Lemma capture_once_screenshot_fails (E : env) (player : element) (dir : string)
    (secs digits i : Z) (h : trace) (e : exn) :
  raises E h (Screenshot player (screenshot_path dir digits i)) = Some e ->
  capture_once E player dir secs digits i h
    = ([Screenshot player (screenshot_path dir digits i)], Raise e).
Proof. intros H. unfold capture_once, bind, do_call. now rewrite H. Qed.

(** X18: a screenshot that fails ends the loop: when the interval is one
    that [time.sleep] accepts ([0 <= secs <= sleep_max]), the captures
    before index [k] go through and the screenshot of index [k] raises [e], the
    calls of the loop are those of the captures before [k] and that one
    screenshot, nothing is reported for it, no later capture is tried and
    the loop ends with [e]. *)
Theorem capture_loop_abandons_after_failure (E : env) (player : element)
    (dir : string) (secs num k : Z) (h : trace) (e : exn) :
  0 <= secs <= sleep_max -> 0 <= k < num ->
  let done := flat_map (capture_calls player dir secs (digits_of num)) (py_range k) in
  (forall h' c, In c done -> raises E h' c = None) ->
  raises E (h ++ done) (Screenshot player (screenshot_path dir (digits_of num) k)) = Some e ->
  capture_loop E player dir secs num h
    = (done ++ [Screenshot player (screenshot_path dir (digits_of num) k)], Raise e).
Proof.
  intros Hs Hk done Hq Hfail. unfold capture_loop.
  destruct (py_range_split num k Hk) as [rest ->].
  rewrite for_each_app.
  rewrite (for_each_capture_quiet E player dir secs (digits_of num) (py_range k) Hs Hq h).
  fold done. cbn [for_each]. unfold bind.
  rewrite (capture_once_screenshot_fails E player dir secs (digits_of num) k _ e Hfail).
  reflexivity.
Qed.

Lemma capture_loop_abandons_after_failure_witness :
  capture_loop third_capture_fails (ById "player-teletorn") "teletorn_20240101_1200" 30 4 []
  = ([ Screenshot (ById "player-teletorn") "teletorn_20240101_1200/0.png";
       Print "Saved teletorn_20240101_1200/0.png"; Sleep 30;
       Screenshot (ById "player-teletorn") "teletorn_20240101_1200/1.png";
       Print "Saved teletorn_20240101_1200/1.png"; Sleep 30;
       Screenshot (ById "player-teletorn") "teletorn_20240101_1200/2.png" ],
     Raise (WebDriverException "StaleElementReferenceException")).
Proof.
  apply (capture_loop_abandons_after_failure third_capture_fails (ById "player-teletorn")
           "teletorn_20240101_1200" 30 4 2 []);
    [unfold sleep_max; lia | lia | | reflexivity].
  intros h' c Hc. cbn in Hc.
  repeat (destruct Hc as [<-|Hc]; [reflexivity|]). destruct Hc.
Defined.

Lemma flat_map_capture_totals (player : element) (dir : string) (secs digits : Z)
    (xs : list Z) :
  List.length (filter is_screenshot (flat_map (capture_calls player dir secs digits) xs))
    = List.length xs /\
  total_sleep (flat_map (capture_calls player dir secs digits) xs)
    = Z.of_nat (List.length xs) * secs.
Proof.
  induction xs as [|x xs [IH1 IH2]]; [split; reflexivity|].
  cbn [flat_map capture_calls app filter is_screenshot List.length total_sleep].
  rewrite IH1, IH2. split; lia.
Qed.

(** X19: when the interval is one that [time.sleep] accepts
    ([0 <= secs <= sleep_max]) and no call of the loop raises, a loop for a count that is not negative takes exactly that many
    screenshots and pauses for the count times the interval in all. *)
Theorem capture_loop_totals (E : env) (player : element) (dir : string)
    (secs num : Z) (h : trace) :
  0 <= secs <= sleep_max -> 0 <= num ->
  (forall h' c, In c (loop_calls player dir secs num) -> raises E h' c = None) ->
  Z.of_nat (List.length (filter is_screenshot (fst (capture_loop E player dir secs num h))))
    = num /\
  total_sleep (fst (capture_loop E player dir secs num h)) = num * secs.
Proof.
  intros Hs Hn Hq. unfold capture_loop.
  rewrite (for_each_capture_quiet E player dir secs (digits_of num) (py_range num) Hs Hq h).
  cbn [fst].
  destruct (flat_map_capture_totals player dir secs (digits_of num) (py_range num)) as [H1 H2].
  rewrite H1, H2, py_range_length. split; lia.
Qed.

Lemma capture_loop_totals_witness :
  Z.of_nat (List.length (filter is_screenshot
     (fst (capture_loop quiet (ById "player-teletorn") "teletorn_20240101_1200" 30 4 []))))
    = 4 /\
  total_sleep (fst (capture_loop quiet (ById "player-teletorn") "teletorn_20240101_1200" 30 4 []))
    = 4 * 30.
Proof.
  apply (capture_loop_totals quiet (ById "player-teletorn") "teletorn_20240101_1200" 30 4 []);
    [unfold sleep_max; lia | lia | reflexivity].
Defined.

(** X20: a run given a duration never pauses longer than the duration: for
    a duration [t] with [0 <= t < 2^53] and a positive interval of at most
    [sleep_max] seconds, when the directory is new and no call raises, the captures number
    [floor(t / interval)] and the pauses add up to that count times the
    interval, which is at most [t] and more than [t - interval]. *)
Theorem record_captures_within_duration (E : env) (a : args) (h : trace) (t : Z) :
  truthy_int (num_screenshots a) = false -> time a = Some t ->
  0 <= t < 2 ^ 53 -> 0 < interval a <= sleep_max ->
  dir_exists E (screenshots_dir_of E a) = false ->
  (forall h' c, raises E h' c = None) ->
  snd (record_captures E a h) = Ok tt /\
  Z.of_nat (List.length (filter is_screenshot (fst (record_captures E a h))))
    = t / interval a /\
  total_sleep (fst (record_captures E a h)) = t / interval a * interval a /\
  t - interval a < total_sleep (fst (record_captures E a h)) <= t.
Proof.
  intros Hn Ht Hb [Hi Hmax] Hd Hq.
  rewrite (record_captures_resolved E a h Hd (Hq _ _)).
  assert (Hres : resolve_num_screenshots a = Ok (t / interval a)).
  { unfold resolve_num_screenshots. rewrite Hn, Ht.
    destruct (int_truediv_floor t (interval a) Hb Hi) as [x [Hx Hf]].
    rewrite Hx, Hf. now destruct (num_screenshots a). }
  rewrite Hres. unfold capture_loop.
  rewrite (for_each_capture_quiet E (player_of a) (screenshots_dir_of E a) (interval a)
             (digits_of (t / interval a)) (py_range (t / interval a))
             ltac:(lia) (fun h' c _ => Hq h' c)).
  cbn [fst snd filter is_screenshot total_sleep].
  destruct (flat_map_capture_totals (player_of a) (screenshots_dir_of E a) (interval a)
              (digits_of (t / interval a)) (py_range (t / interval a))) as [H1 H2].
  rewrite H1, H2, py_range_length.
  assert (Hq0 : 0 <= t / interval a) by (apply Z.div_pos; lia).
  pose proof (Z.mul_div_le t (interval a) Hi).
  pose proof (Z.mul_succ_div_gt t (interval a) Hi).
  rewrite Z2Nat.id by lia. repeat split; lia.
Qed.

Lemma record_captures_within_duration_witness :
  snd (record_captures quiet (MkArgs None "teletorn" (1920, 1080) None 30 None (Some 125)) [])
    = Ok tt /\
  Z.of_nat (List.length (filter is_screenshot
     (fst (record_captures quiet (MkArgs None "teletorn" (1920, 1080) None 30 None (Some 125)) []))))
    = 125 / 30 /\
  total_sleep
    (fst (record_captures quiet (MkArgs None "teletorn" (1920, 1080) None 30 None (Some 125)) []))
    = 125 / 30 * 30 /\
  125 - 30 < total_sleep
    (fst (record_captures quiet (MkArgs None "teletorn" (1920, 1080) None 30 None (Some 125)) []))
    <= 125.
Proof.
  apply (record_captures_within_duration quiet
           (MkArgs None "teletorn" (1920, 1080) None 30 None (Some 125)) [] 125);
    [reflexivity | reflexivity | cbn; lia | unfold sleep_max; cbn; lia
    | reflexivity | reflexivity].
Defined.

(** ** The count for a negative interval *)

Lemma int_truediv_negative (a b : Z) :
  0 <= a < 2 ^ 53 -> b < 0 ->
  exists x, py_truediv a b = Ok x /\ py_int_of_float x = - (a / - b).
Proof.
  intros Ha Hb. unfold py_truediv.
  destruct (Z.eqb_spec b 0) as [?|_]; [lia|].
  destruct (Z.ltb_spec a 0) as [?|_]; [lia|].
  destruct (Z.ltb_spec b 0) as [_|?]; [|lia].
  destruct (Z.eqb_spec a 0) as [->|Hnz].
  - eexists; split; [reflexivity|]. rewrite Zdiv_0_l. reflexivity.
  - rewrite (Z.abs_eq a), (Z.abs_neq b) by lia.
    destruct (rounded_mantissa_bounds a (- b) ltac:(lia) ltac:(lia)) as [Hs [Hm1 Hm2]].
    set (s := Z.max (quotient_exponent a (- b) - 52) (-1074)) in *.
    set (m := round_half_even (scale_num a s) (scale_den (- b) s)) in *.
    assert (HT : 0 < 2 ^ (- s)) by (apply Z.pow_pos_nonneg; lia).
    assert (Hk : 0 <= a / - b <= a).
    { split; [apply Z.div_pos; lia|]. apply Z.div_le_upper_bound; nia. }
    rewrite (scale_num_nonneg m (- s)), (scale_den_nonneg 1 (- s)) by lia.
    rewrite (scale_den_nonneg 1 1024) by lia.
    destruct (Z.leb_spec (1 * 2 ^ 1024 * (1 * 2 ^ (- s))) m) as [Hov|_].
    + exfalso. assert (2 ^ 53 < 2 ^ 1024) by (apply Z.pow_lt_mono_r; lia). nia.
    + eexists; split; [reflexivity|].
      unfold py_int_of_float. cbn [fsign mant expo xorb].
      rewrite (scale_num_nonneg m (- s)), (scale_den_nonneg 1 (- s)) by lia.
      rewrite Z.mul_1_l. f_equal. symmetry.
      apply Z.div_unique with (r := m - a / - b * 2 ^ (- s)); lia.
Qed.

(** X21: with a duration [t], [0 <= t < 2^53], and a negative interval the
    count is the quotient cut toward zero, [-(t / -interval)], which is
    never positive (and is above the floor when the division is not
    exact); the run then creates the output directory, takes no capture
    and ends normally. *)
Theorem record_captures_negative_interval (E : env) (a : args) (h : trace) (t : Z) :
  truthy_int (num_screenshots a) = false -> time a = Some t ->
  0 <= t < 2 ^ 53 -> interval a < 0 ->
  dir_exists E (screenshots_dir_of E a) = false ->
  raises E h (Mkdir (screenshots_dir_of E a)) = None ->
  resolve_num_screenshots a = Ok (- (t / - interval a)) /\
  - (t / - interval a) <= 0 /\
  t / interval a <= - (t / - interval a) /\
  record_captures E a h = ([Mkdir (screenshots_dir_of E a)], Ok tt).
Proof.
  intros Hn Ht Hb Hi Hd Hm.
  assert (Hres : resolve_num_screenshots a = Ok (- (t / - interval a))).
  { unfold resolve_num_screenshots. rewrite Hn, Ht.
    destruct (int_truediv_negative t (interval a) Hb Hi) as [x [Hx Hf]].
    rewrite Hx, Hf. now destruct (num_screenshots a). }
  assert (Hq : 0 <= t / - interval a) by (apply Z.div_pos; lia).
  split; [exact Hres|]. split; [lia|]. split.
  - pose proof (Z.mul_div_le t (- interval a) ltac:(lia)).
    rewrite <- (Z.div_opp_opp t (interval a)) by lia.
    apply Z.div_le_upper_bound; [lia | nia].
  - rewrite (record_captures_resolved E a h Hd Hm), Hres.
    unfold capture_loop. rewrite py_range_nonpos by lia. reflexivity.
Qed.

Lemma record_captures_negative_interval_witness :
  resolve_num_screenshots (MkArgs None "teletorn" (1920, 1080) None (-30) None (Some 100))
    = Ok (- (100 / - -30)) /\
  - (100 / - -30) <= 0 /\
  100 / -30 <= - (100 / - -30) /\
  record_captures quiet (MkArgs None "teletorn" (1920, 1080) None (-30) None (Some 100)) []
    = ([Mkdir "teletorn_20240101_1200"], Ok tt).
Proof.
  apply (record_captures_negative_interval quiet
           (MkArgs None "teletorn" (1920, 1080) None (-30) None (Some 100)) [] 100);
    [reflexivity | reflexivity | cbn; lia | cbn; lia | reflexivity | reflexivity].
Defined.

(** ** Whole runs *)

Lemma filter_none {A : Type} (f : A -> bool) (l : list A) :
  Forall (fun x => f x = false) l -> filter f l = [].
Proof.
  induction 1 as [|x l Hx _ IH]; [reflexivity|]. cbn. now rewrite Hx.
Qed.

Lemma emits_record_tail (P : call -> Prop) (E : env) (a : args) :
  (forall c, (forall p, c <> Mkdir p) -> not_quit c -> P c) ->
  emits P (bind (lift (resolve_num_screenshots a))
             (fun num => capture_loop E (player_of a) (screenshots_dir_of E a)
                           (interval a) num)).
Proof.
  intros HP. unfold capture_loop, capture_once.
  repeat emits_step; apply HP; cbn; try exact I; discriminate.
Qed.

Lemma record_captures_trace (E : env) (a : args) (h : trace) :
  exists tail,
    fst (record_captures E a h) = Mkdir (screenshots_dir_of E a) :: tail /\
    Forall (fun c => is_mkdir c = false) tail /\
    (tail <> [] ->
     dir_exists E (screenshots_dir_of E a) = false /\
     raises E h (Mkdir (screenshots_dir_of E a)) = None).
Proof.
  unfold record_captures. unfold bind at 1. unfold mkdir.
  destruct (dir_exists E (screenshots_dir_of E a)).
  { exists []. split; [reflexivity|]. split; [constructor | congruence]. }
  destruct (raises E h (Mkdir (screenshots_dir_of E a))).
  { exists []. split; [reflexivity|]. split; [constructor | congruence]. }
  pose proof (emits_record_tail (fun c => is_mkdir c = false) E a) as Hem.
  specialize (Hem ltac:(intros c Hc _; destruct c; try reflexivity; now destruct (Hc path))
                  (h ++ [Mkdir (screenshots_dir_of E a)])).
  destruct (bind _ _ _) as [t r]. cbn [fst] in *.
  exists t. split; [reflexivity|]. split; [exact Hem | intros _; split; reflexivity].
Qed.

(** X22: in every environment a run calls [mkdir] at most once, and in the
    body of the run a screenshot other than the measurement one is taken
    only after the output directory was created: a [mkdir] of that
    directory, which did not raise, comes before it. *)
Theorem captures_follow_directory_creation (E : env) (a : args) (h : trace) :
  (List.length (filter is_mkdir (fst (main E a h))) <= 1)%nat /\
  (forall pre el path post,
     fst (session_body E a h) = pre ++ Screenshot el path :: post ->
     path <> sizetest_path E ->
     In (Mkdir (screenshots_dir_of E a)) pre /\
     dir_exists E (screenshots_dir_of E a) = false).
Proof.
  assert (Hbody : forall h',
    exists front tail,
      fst (session_body E a h') = front ++ tail /\
      Forall (fun c => is_mkdir c = false /\ scratch_screenshot_only E c) front /\
      (tail = [] \/
       exists rest, tail = Mkdir (screenshots_dir_of E a) :: rest /\
         Forall (fun c => is_mkdir c = false) rest /\
         (rest <> [] -> dir_exists E (screenshots_dir_of E a) = false))).
  { intros h'. unfold session_body. unfold bind at 1.
    pose proof (emits_start_player
                  (fun c => is_mkdir c = false /\ scratch_screenshot_only E c) E a) as H1.
    specialize (H1 ltac:(intros c _ Hs Hm; split; [|exact Hs];
                         destruct c; try reflexivity; now destruct (Hm path)) h').
    destruct (start_player E a h') as [t1 [[]|e1]]; cbn [fst] in *.
    2:{ exists t1, []. rewrite app_nil_r.
        split; [reflexivity|]. split; [exact H1 | now left]. }
    unfold bind at 1.
    pose proof (emits_calibrate
                  (fun c => is_mkdir c = false /\ scratch_screenshot_only E c) E
                  (player_of a) (window_size a)) as H2.
    specialize (H2 ltac:(intros c _ Hs Hm; split; [|exact Hs];
                         destruct c; try reflexivity; now destruct (Hm path)) (h' ++ t1)).
    destruct (calibrate E (player_of a) (window_size a) (h' ++ t1)) as [t2 [[]|e2]];
      cbn [fst] in *.
    2:{ exists (t1 ++ t2), []. rewrite app_nil_r.
        split; [reflexivity|]. split; [apply Forall_app; split; assumption | now left]. }
    destruct (record_captures_trace E a ((h' ++ t1) ++ t2)) as (tail & Ht & Hf & Hd).
    destruct (record_captures E a ((h' ++ t1) ++ t2)) as [t3 r3]. cbn [fst] in *.
    exists (t1 ++ t2), t3. rewrite app_assoc. split; [reflexivity|]. split.
    - apply Forall_app; split; assumption.
    - right. exists tail. split; [exact Ht|]. split; [exact Hf|].
      intros Hne. now apply Hd. }
  split.
  - pose proof (emits_acquire (fun c => is_mkdir c = false) E a (fun _ _ _ => eq_refl) h) as H0.
    unfold main, bind, try_finally.
    destruct (acquire E a h) as [t0 [d|e]]; cbn [fst] in *.
    2:{ rewrite (filter_none is_mkdir t0 H0). cbn. lia. }
    destruct (Hbody (h ++ t0)) as (front & tail & Hsplit & Hfront & Htail).
    destruct (session_body E a (h ++ t0)) as [tb rb]. unfold do_call.
    cbn [fst] in *. subst tb.
    rewrite !filter_app, (filter_none is_mkdir t0 H0).
    rewrite (filter_none is_mkdir front)
      by (eapply Forall_impl; [|exact Hfront]; now intros c [Hc _]).
    destruct Htail as [->|(rest & -> & Hrest & _)]; cbn.
    + lia.
    + rewrite (filter_none is_mkdir rest Hrest). cbn. lia.
  - intros pre el path post Heq Hpath.
    destruct (Hbody h) as (front & tail & Hsplit & Hfront & Htail).
    rewrite Hsplit in Heq. clear Hsplit.
    revert pre Heq. induction Hfront as [|c front [Hc1 Hc2] _ IH]; intros pre Heq.
    + cbn in Heq. destruct Htail as [->|(rest & -> & Hrest & Hd)].
      * destruct pre; discriminate.
      * destruct pre as [|p pre]; [discriminate|]. inversion Heq; subst.
        split; [now left|]. apply Hd. intros Hnil. destruct pre; discriminate.
    + destruct pre as [|p pre]; cbn in Heq; inversion Heq; subst.
      * cbn in Hc2. contradiction.
      * destruct (IH pre H1) as [Hin Hd]. split; [now right | exact Hd].
Qed.

Lemma captures_follow_directory_creation_witness :
  In (Mkdir (screenshots_dir_of quiet four_captures))
     (firstn 21 (fst (session_body quiet four_captures []))) /\
  dir_exists quiet (screenshots_dir_of quiet four_captures) = false.
Proof.
  apply (proj2 (captures_follow_directory_creation quiet four_captures [])
           (firstn 21 (fst (session_body quiet four_captures [])))
           (ById "player-teletorn") "teletorn_20240101_1200/0.png"%string
           (skipn 22 (fst (session_body quiet four_captures [])))).
  - reflexivity.
  - discriminate.
Defined.

(** X23: when the page cannot be opened, nothing is written: if the session
    was acquired and [driver.get] raises [e], the run makes the calls of the
    acquisition, the [get] and the [quit] of the driver and no other call
    (no screenshot, no directory), and it ends with [e], or with the
    exception of [quit] if [quit] raises too. *)
Theorem main_page_unreachable (E : env) (a : args) (h t0 : trace) (d : driver) (e : exn) :
  acquire E a h = (t0, Ok d) ->
  raises E (h ++ t0) (Get "https://skyview.ee") = Some e ->
  main E a h =
    (t0 ++ [Get "https://skyview.ee"; Quit d],
     match raises E ((h ++ t0) ++ [Get "https://skyview.ee"]) (Quit d) with
     | Some e' => Raise e'
     | None => Raise e
     end).
Proof.
  intros Hacq Hget. unfold main. unfold bind at 1. rewrite Hacq.
  unfold try_finally, session_body. unfold bind at 1.
  unfold start_player. unfold bind at 1. unfold do_call at 1. rewrite Hget.
  unfold do_call.
  now destruct (raises E ((h ++ t0) ++ [Get "https://skyview.ee"]) (Quit d)).
Qed.

Lemma main_page_unreachable_witness :
  main page_unreachable four_captures [] =
    (map (launch_of (1920, 1080) None) (firstn 1 BROWSERS)
       ++ [Get "https://skyview.ee"; Quit (MkDriver "webdriver.Chrome")],
     Raise (WebDriverException "TimeoutException")).
Proof.
  apply (main_page_unreachable page_unreachable four_captures []
           (map (launch_of (1920, 1080) None) (firstn 1 BROWSERS))
           (MkDriver "webdriver.Chrome") (WebDriverException "TimeoutException"));
    reflexivity.
Defined.

Lemma start_player_quiet (E : env) (a : args) (h : trace) :
  (forall h' c, raises E h' c = None) ->
  snd (start_player E a h) = Ok tt /\
  filter is_screenshot (fst (start_player E a h)) = [].
Proof.
  intros Hq. unfold start_player.
  change (sleep E 5) with (do_call E (Sleep 5)).
  change (sleep E 1) with (do_call E (Sleep 1)). unfold bind, do_call.
  repeat (first [rewrite Hq | progress cbn]). split; reflexivity.
Qed.

Lemma calibrate_quiet (E : env) (player : element) (ws actual : Z * Z) (h : trace) :
  (forall h' c, raises E h' c = None) ->
  unpack_ii (slice 16 24 (firstn 24 (sizetest_bytes E))) = Ok actual ->
  snd (calibrate E player ws h) = Ok tt /\
  filter is_screenshot (fst (calibrate E player ws h))
    = [Screenshot player (sizetest_path E)].
Proof.
  intros Hq Hsize. unfold calibrate. change (sleep E 1) with (do_call E (Sleep 1)).
  unfold try_finally, bind, lift, do_call.
  rewrite Hsize. repeat (first [rewrite Hq | progress cbn [fst snd app Z.ltb Z.compare]]).
  destruct (negb (fst ws - fst actual =? 0) || negb (snd ws - snd actual =? 0));
    repeat (first [rewrite Hq | progress cbn]); split; reflexivity.
Qed.

Lemma filter_screenshot_capture_calls (player : element) (dir : string)
    (secs digits : Z) (xs : list Z) :
  filter is_screenshot (flat_map (capture_calls player dir secs digits) xs)
  = map (fun i => Screenshot player (screenshot_path dir digits i)) xs.
Proof.
  induction xs as [|x xs IH]; [reflexivity|].
  cbn [flat_map capture_calls app filter is_screenshot map]. now rewrite IH.
Qed.

(** X24: a run in which nothing raises: when the session is acquired, no
    call raises, the output directory is new, the screenshot header can be
    read, the count resolves to [num] and the interval is one that
    [time.sleep] accepts ([0 <= interval <= sleep_max]), the run ends
    normally and its screenshots are, in this order, the
    measurement one in the scratch directory and then the captures
    [dir/<i padded>.png] for i = 0, ..., num-1. *)
Theorem main_quiet_run (E : env) (a : args) (h : trace) (d : driver)
    (actual : Z * Z) (num : Z) :
  snd (acquire E a h) = Ok d ->
  (forall h' c, raises E h' c = None) ->
  dir_exists E (screenshots_dir_of E a) = false ->
  unpack_ii (slice 16 24 (firstn 24 (sizetest_bytes E))) = Ok actual ->
  resolve_num_screenshots a = Ok num ->
  0 <= interval a <= sleep_max ->
  snd (main E a h) = Ok tt /\
  filter is_screenshot (fst (main E a h))
    = Screenshot (player_of a) (sizetest_path E)
      :: map (fun i => Screenshot (player_of a)
                         (screenshot_path (screenshots_dir_of E a) (digits_of num) i))
           (py_range num).
Proof.
  intros Hacq Hq Hd Hsize Hres Hi.
  pose proof (emits_acquire (fun c => is_screenshot c = false) E a
                (fun _ _ _ => eq_refl) h) as H0.
  destruct (acquire E a h) as [t0 r0] eqn:Ha. cbn [fst snd] in Hacq, H0. subst r0.
  destruct (start_player_quiet E a (h ++ t0) Hq) as [Hs1 Hs2].
  destruct (start_player E a (h ++ t0)) as [t1 r1] eqn:Hsp.
  cbn [fst snd] in Hs1, Hs2. subst r1.
  destruct (calibrate_quiet E (player_of a) (window_size a) actual ((h ++ t0) ++ t1) Hq Hsize)
    as [Hc1 Hc2].
  destruct (calibrate E (player_of a) (window_size a) ((h ++ t0) ++ t1)) as [t2 r2] eqn:Hcal.
  cbn [fst snd] in Hc1, Hc2. subst r2.
  set (loop := flat_map (capture_calls (player_of a) (screenshots_dir_of E a) (interval a)
                           (digits_of num)) (py_range num)).
  assert (Hrec : record_captures E a (((h ++ t0) ++ t1) ++ t2)
                 = (Mkdir (screenshots_dir_of E a) :: loop, Ok tt)).
  { rewrite (record_captures_resolved E a _ Hd (Hq _ _)), Hres. unfold capture_loop.
    rewrite (for_each_capture_quiet E (player_of a) (screenshots_dir_of E a) (interval a)
               (digits_of num) (py_range num) Hi (fun h' c _ => Hq h' c)).
    reflexivity. }
  assert (Hmain : main E a h
                  = (t0 ++ (t1 ++ t2 ++ Mkdir (screenshots_dir_of E a) :: loop)
                        ++ [Quit d], Ok tt)).
  { unfold main, try_finally, session_body, bind.
    rewrite Ha. cbv beta iota. rewrite Hsp. cbv beta iota.
    rewrite Hcal. cbv beta iota. rewrite Hrec. cbv beta iota.
    unfold do_call. rewrite Hq. reflexivity. }
  rewrite Hmain. cbn [fst snd]. split; [reflexivity|].
  rewrite !filter_app, (filter_none is_screenshot t0 H0), Hs2, Hc2.
  cbn [app filter is_screenshot]. unfold loop.
  rewrite filter_screenshot_capture_calls, app_nil_r. reflexivity.
Qed.

Lemma main_quiet_run_witness :
  snd (main quiet four_captures []) = Ok tt /\
  filter is_screenshot (fst (main quiet four_captures []))
    = Screenshot (player_of four_captures) (sizetest_path quiet)
      :: map (fun i => Screenshot (player_of four_captures)
                         (screenshot_path (screenshots_dir_of quiet four_captures)
                            (digits_of 4) i))
           (py_range 4).
Proof.
  apply (main_quiet_run quiet four_captures [] (MkDriver "webdriver.Chrome") (1905, 1080) 4);
    [reflexivity | reflexivity | reflexivity | reflexivity | reflexivity
    | unfold sleep_max; cbn; lia].
Defined.

(** ** Explicit kinds *)

(** X25: with a kind of the table given on the command line, the
    acquisition is the single launch of that kind with
    [args.driver_path] as the executable path: no other kind is tried,
    also when the launch raises a [WebDriverException]. *)
Theorem acquire_explicit_kind (E : env) (a : args) (h : trace)
    (entry : string * capability) :
  In entry BROWSERS -> browser a = Some (fst entry) ->
  acquire E a h =
    ([Launch (snd entry) (launch_arguments (window_size a)) (driver_path a)],
     match raises E h (Launch (snd entry) (launch_arguments (window_size a)) (driver_path a)) with
     | None => Ok (MkDriver (driverclass (snd entry)))
     | Some e => Raise (create_driver_exn (fst entry) e)
     end).
Proof.
  intros Hin Hb. unfold acquire. rewrite Hb.
  assert (Ht : truthy_str (Some (fst entry)) = true).
  { cbn in Hin. destruct Hin as [<-|[<-|[<-|[<-|[]]]]]; reflexivity. }
  rewrite Ht. apply (create_driver_listed E entry _ _ h (In_BROWSERS_listed entry Hin)).
Qed.

Lemma acquire_explicit_kind_witness :
  acquire only_edge
    (MkArgs (Some "firefox"%string) "teletorn" (1920, 1080)
       (Some "/opt/geckodriver"%string) 30 (Some 4) None) []
  = ([Launch (MkCapability "webdriver.Firefox" "webdriver.FirefoxService"
                "webdriver.FirefoxOptions")
        (launch_arguments (1920, 1080)) (Some "/opt/geckodriver"%string)],
     Raise (WebDriverException "NoSuchDriverException")).
Proof.
  apply (acquire_explicit_kind only_edge
           (MkArgs (Some "firefox"%string) "teletorn" (1920, 1080)
              (Some "/opt/geckodriver"%string) 30 (Some 4) None) []
           ("firefox"%string,
            MkCapability "webdriver.Firefox" "webdriver.FirefoxService"
              "webdriver.FirefoxOptions"));
    [cbn; auto | reflexivity].
Defined.


(** ** File names of a run *)

(** C7: for a positive count, every index below it is written with exactly
    as many characters as the count has decimal digits, so each file name
    has that width plus the four characters of ".png".  The width is fixed
    once for the loop: when the interval can be slept and no call raises,
    the loop ends normally and its screenshots are, in order, the files
    [dir/<name of i>] for i = 0, ..., count-1, each name padded to the
    digits of the count; and in any environment the calls made are an
    initial part of the calls with these names.  For a count of 12 the
    names are "00.png" to "11.png" and for a count of 100 they are
    "000.png" to "099.png", and runs of 12 and of 100 captures take their
    screenshots under exactly these names. *)
Theorem uniform_padding :
  (forall count i, 0 < count -> 0 <= i < count ->
     Z.of_nat (String.length (format_0d (digits_of count) i)) = digits_of count /\
     digits_of count = Z.of_nat (String.length (py_str count)) /\
     String.length (screenshot_name (digits_of count) i)
       = (String.length (py_str count) + 4)%nat) /\
  (forall E player dir secs count h,
     0 <= secs <= sleep_max ->
     (forall h' c, In c (loop_calls player dir secs count) -> raises E h' c = None) ->
     snd (capture_loop E player dir secs count h) = Ok tt /\
     filter is_screenshot (fst (capture_loop E player dir secs count h))
       = map (fun i => Screenshot player
                         (path_join dir (screenshot_name (digits_of count) i)))
           (py_range count)) /\
  (forall E player dir secs count h, exists rest,
     flat_map (capture_calls player dir secs (digits_of count)) (py_range count)
       = fst (capture_loop E player dir secs count h) ++ rest) /\
  map (screenshot_name (digits_of 12)) (py_range 12) = names_12 /\
  map (screenshot_name (digits_of 100)) (py_range 100) = names_100 /\
  filter is_screenshot
    (fst (run (capture_loop quiet (ById "player-teletorn") "teletorn_20240101_1200" 30 12)))
    = map (fun name => Screenshot (ById "player-teletorn")
                         (path_join "teletorn_20240101_1200"%string name)) names_12 /\
  filter is_screenshot
    (fst (run (capture_loop quiet (ById "player-teletorn") "teletorn_20240101_1200" 30 100)))
    = map (fun name => Screenshot (ById "player-teletorn")
                         (path_join "teletorn_20240101_1200"%string name)) names_100.
Proof.
  split; [|split; [|split; [|repeat split; vm_compute; reflexivity]]].
  - intros count i Hc Hi.
    assert (Hw : Z.of_nat (String.length (format_0d (digits_of count) i))
                 = digits_of count).
    { apply format_0d_length; [lia|]. unfold digits_of, py_str.
      destruct (Z.ltb_spec count 0) as [?|_]; [lia|].
      apply inj_le, str_nonneg_length_le. lia. }
    split; [exact Hw|]. split; [reflexivity|].
    unfold screenshot_name. rewrite string_length_app. cbn [String.length].
    unfold digits_of in Hw at 2. lia.
  - intros E player dir secs count h Hs Hq. unfold capture_loop.
    rewrite (for_each_capture_quiet E player dir secs (digits_of count) (py_range count) Hs Hq h).
    cbn [fst snd]. split; [reflexivity|].
    apply filter_screenshot_capture_calls.
  - intros E player dir secs count h. apply for_each_capture_prefix.
Qed.

Lemma uniform_padding_witness :
  (Z.of_nat (String.length (format_0d (digits_of 12) 7)) = digits_of 12 /\
   digits_of 12 = Z.of_nat (String.length (py_str 12)) /\
   String.length (screenshot_name (digits_of 12) 7)
     = (String.length (py_str 12) + 4)%nat) /\
  (snd (capture_loop quiet (ById "player-teletorn") "teletorn_20240101_1200" 30 12 []) = Ok tt /\
   filter is_screenshot
     (fst (capture_loop quiet (ById "player-teletorn") "teletorn_20240101_1200" 30 12 []))
     = map (fun i => Screenshot (ById "player-teletorn")
                       (path_join "teletorn_20240101_1200"%string (screenshot_name (digits_of 12) i)))
         (py_range 12)).
Proof.
  split.
  - apply (proj1 uniform_padding 12 7); lia.
  - apply (proj1 (proj2 uniform_padding) quiet (ById "player-teletorn")
             "teletorn_20240101_1200"%string 30 12 []);
      [unfold sleep_max; lia | intros; reflexivity].
Defined.

(** ** [time2seconds] on text of any characters *)

Lemma sample_decimal_latin1 : latin1_decimal sample_decimal.
Proof.
  intros c Hc. unfold sample_decimal.
  destruct ((48 <=? c) && (c <=? 57))%N; [reflexivity|].
  destruct (N.leb_spec 1632 c); [lia|]. destruct (N.leb_spec 2406 c); [lia|].
  destruct (N.leb_spec 65296 c); [lia|]. reflexivity.
Qed.

Section Text.

Variable decimal : N -> option Z.
Hypothesis Hlatin1 : latin1_decimal decimal.

Lemma unit_code_not_decimal (u : N) :
  is_unit_code u = true -> is_decimal decimal u = false.
Proof.
  unfold is_unit_code, is_decimal. intros Hu.
  repeat (apply orb_true_iff in Hu as [Hu|Hu]);
    apply N.eqb_eq in Hu; subst u; now rewrite Hlatin1.
Qed.

Lemma text_span_digits_spec (s : text) :
  forall ds rest, text_span_digits decimal s = (ds, rest) ->
    s = ds ++ rest /\ forallb (is_decimal decimal) ds = true.
Proof.
  induction s as [|c s IH]; intros ds rest H; cbn in H.
  - inversion H; subst. split; reflexivity.
  - destruct (is_decimal decimal c) eqn:Hc.
    + destruct (text_span_digits decimal s) as [ds' rest'] eqn:Hs. inversion H; subst.
      destruct (IH ds' rest eq_refl) as [-> Ha]. cbn. rewrite Hc, Ha. split; reflexivity.
    + inversion H; subst. split; reflexivity.
Qed.

Lemma text_span_digits_app (ds rest : text) (c : N) :
  forallb (is_decimal decimal) ds = true -> is_decimal decimal c = false ->
  text_span_digits decimal (ds ++ c :: rest) = (ds, c :: rest).
Proof.
  intros Hds Hc. induction ds as [|d ds IH]; cbn in *.
  - now rewrite Hc.
  - apply andb_true_iff in Hds as [Hd Hds]. rewrite Hd, (IH Hds). reflexivity.
Qed.

Lemma text_re_match_duration_iff (s ds : text) (u : N) :
  text_re_match_duration decimal s = Some (ds, u) <-> text_duration_token decimal s ds u.
Proof.
  unfold text_re_match_duration, text_duration_token. split.
  - intros H. destruct (text_span_digits decimal s) as [ds' rest] eqn:Hs.
    destruct (text_span_digits_spec s ds' rest Hs) as [-> Ha].
    destruct ds' as [|c ds']; [discriminate|].
    destruct rest as [|u' [|nl [|x rest]]]; try discriminate.
    + destruct (is_unit_code u') eqn:Hu; inversion H; subst.
      split; [discriminate|]. split; [exact Ha|]. split; [exact Hu | now left].
    + destruct (is_unit_code u') eqn:Hu; cbn in H; [|discriminate].
      destruct (N.eqb_spec nl 10) as [->|]; inversion H; subst.
      split; [discriminate|]. split; [exact Ha|]. split; [exact Hu | now right].
  - intros (Hne & Ha & Hu & [->| ->]);
      rewrite (text_span_digits_app ds _ u Ha (unit_code_not_decimal u Hu));
      (destruct ds; [congruence|]); now rewrite Hu.
Qed.

Lemma text_unit_branches (u : N) (number : Z) :
  (if (u =? 104)%N then Ok (number * 3600)
   else if (u =? 109)%N then Ok (number * 60) else Ok number)
  = Ok (number * unit_code_seconds u).
Proof.
  unfold unit_code_seconds. destruct (u =? 104)%N; [reflexivity|].
  destruct (u =? 109)%N; [reflexivity|]. now rewrite Z.mul_1_r.
Qed.

Lemma text_py_int_Ok (lim : nat) (ds : text) (v : Z) :
  text_py_int decimal lim ds = Ok v <->
  (lim = 0 \/ List.length ds <= lim)%nat /\ v = text_digits_value decimal ds.
Proof.
  unfold text_py_int.
  destruct (Nat.ltb_spec 0 lim) as [Hl|Hl],
           (Nat.ltb_spec lim (List.length ds)) as [Hd|Hd]; cbn; split.
  all: try (intros Heq; inversion Heq; subst; split; [lia | reflexivity]).
  all: try (intros [_ ->]; reflexivity).
  - discriminate.
  - intros [[?|?] _]; lia.
Qed.

(** X1: on a [str] of any Unicode characters, [time2seconds] returns a
    number exactly for the strings made of a non-empty run of decimal
    digits (of any script) that [int] accepts, one of the letters h, m, s
    and at most one final newline, and the number is the value of the
    digits times the seconds of the unit; for every other string it raises
    [ValueError('Invalid time format')] and nothing else. *)
Theorem time2seconds_accepts_exactly (lim : nat) (s : text) :
  (forall v, time2seconds_text decimal lim s = Ok v <->
     exists ds u, text_duration_token decimal s ds u /\
       (lim = 0 \/ List.length ds <= lim)%nat /\
       v = text_digits_value decimal ds * unit_code_seconds u) /\
  (forall e, time2seconds_text decimal lim s = Raise e -> e = invalid_time_format).
Proof.
  unfold time2seconds_text. split.
  - intros v. split.
    + destruct (text_re_match_duration decimal s) as [[ds u]|] eqn:Hm; [|discriminate].
      destruct (text_py_int decimal lim ds) as [number|e] eqn:Hi; [|discriminate].
      rewrite text_unit_branches. intros H; inversion H; subst.
      apply text_py_int_Ok in Hi as [Hl ->].
      exists ds, u. split; [now apply text_re_match_duration_iff|].
      split; [exact Hl | reflexivity].
    + intros (ds & u & Htok & Hl & ->).
      rewrite (proj2 (text_re_match_duration_iff s ds u) Htok).
      rewrite (proj2 (text_py_int_Ok lim ds _) (conj Hl eq_refl)).
      apply text_unit_branches.
  - intros e.
    destruct (text_re_match_duration decimal s) as [[ds u]|]; [|now intros H; inversion H].
    destruct (text_py_int decimal lim ds); [|now intros H; inversion H].
    rewrite text_unit_branches. discriminate.
Qed.

(** X26: a string that is empty or does not begin with a decimal digit of
    some script (a sign, a blank, a letter) is never a duration:
    [time2seconds] raises [ValueError('Invalid time format')] for it. *)
Theorem time2seconds_rejects_without_leading_digit (lim : nat) (s : text) :
  match s with
  | [] => True
  | c :: _ => is_decimal decimal c = false
  end ->
  time2seconds_text decimal lim s = Raise invalid_time_format.
Proof.
  intros H. unfold time2seconds_text, text_re_match_duration.
  destruct s as [|c s]; [reflexivity|]. cbn [text_span_digits]. now rewrite H.
Qed.

(** On the strings of the 8-bit model the two embeddings agree. *)
Lemma is_decimal_ascii (c : ascii) : is_decimal decimal (N_of_ascii c) = is_digit c.
Proof.
  unfold is_decimal, is_digit. rewrite (Hlatin1 _ (N_ascii_bounded c)).
  unfold nat_of_ascii.
  destruct (N.leb_spec 48 (N_of_ascii c)), (N.leb_spec (N_of_ascii c) 57),
           (Nat.leb_spec 48 (N.to_nat (N_of_ascii c))),
           (Nat.leb_spec (N.to_nat (N_of_ascii c)) 57); cbn; try reflexivity; lia.
Qed.

Lemma decimal_value_ascii (c : ascii) :
  is_digit c = true -> decimal_value decimal (N_of_ascii c) = digit_value c.
Proof.
  intros Hc. pose proof (is_decimal_ascii c) as Hd. rewrite Hc in Hd.
  unfold is_decimal, decimal_value, digit_value in *.
  rewrite (Hlatin1 _ (N_ascii_bounded c)) in *.
  destruct ((48 <=? N_of_ascii c) && (N_of_ascii c <=? 57))%N; [|discriminate].
  unfold nat_of_ascii. now rewrite N_nat_Z.
Qed.

Lemma is_unit_code_ascii (u : ascii) : is_unit_code (N_of_ascii u) = is_unit u.
Proof. destruct u as [[] [] [] [] [] [] [] []]; reflexivity. Qed.

Lemma unit_code_ascii (u : ascii) :
  ((N_of_ascii u =? 104)%N = (u =? "h")%char) /\
  ((N_of_ascii u =? 109)%N = (u =? "m")%char) /\
  ((N_of_ascii u =? 10)%N = (u =? "010")%char).
Proof. destruct u as [[] [] [] [] [] [] [] []]; repeat split; reflexivity. Qed.

Lemma codes_length (s : string) : List.length (codes s) = String.length s.
Proof. induction s as [|c s IH]; cbn; [reflexivity | now rewrite IH]. Qed.

Lemma text_span_digits_codes (s : string) :
  text_span_digits decimal (codes s)
  = (codes (fst (span_digits s)), codes (snd (span_digits s))).
Proof.
  induction s as [|c s IH]; [reflexivity|].
  cbn [codes text_span_digits span_digits]. rewrite is_decimal_ascii.
  destruct (is_digit c); [|reflexivity].
  rewrite IH. now destruct (span_digits s).
Qed.

Lemma text_digits_value_codes (ds : string) :
  all_digits ds = true ->
  forall acc, text_digits_value_from decimal acc (codes ds) = digits_value_from acc ds.
Proof.
  induction ds as [|c ds IH]; intros Ha acc; [reflexivity|].
  cbn [all_digits] in Ha. apply andb_true_iff in Ha as [Hc Ha].
  cbn [codes text_digits_value_from digits_value_from].
  rewrite (decimal_value_ascii c Hc). now apply IH.
Qed.

Lemma time2seconds_text_codes (lim : nat) (s : string) :
  time2seconds_text decimal lim (codes s) = time2seconds lim s.
Proof.
  unfold time2seconds_text, time2seconds, text_re_match_duration, re_match_duration.
  rewrite text_span_digits_codes.
  destruct (span_digits s) as [ds rest] eqn:Hs.
  destruct (span_digits_spec s ds rest Hs) as [_ Ha]. cbn [fst snd].
  assert (Hint : text_py_int decimal lim (codes ds) = py_int lim ds).
  { unfold text_py_int, py_int, text_digits_value, digits_value.
    now rewrite codes_length, (text_digits_value_codes ds Ha). }
  destruct ds as [|c ds]; [reflexivity|].
  cbn [codes] in *.
  destruct rest as [|u [|nl [|x rest]]]; cbn [codes]; try reflexivity.
  - rewrite is_unit_code_ascii. destruct (is_unit u); [|reflexivity].
    rewrite Hint. destruct (unit_code_ascii u) as (-> & -> & _). reflexivity.
  - rewrite is_unit_code_ascii.
    destruct (unit_code_ascii nl) as (_ & _ & ->).
    destruct (is_unit u && (nl =? "010")%char); [|reflexivity].
    rewrite Hint. destruct (unit_code_ascii u) as (-> & -> & _). reflexivity.
Qed.

End Text.

(** Durations written with the digits of other scripts: three Arabic-Indic
    seconds, five fullwidth seconds, and 52 minutes written with an ASCII
    and a Devanagari digit; a lone unit and a minus sign are refused. *)
Lemma time2seconds_text_samples :
  time2seconds_text sample_decimal 4300 [1635; 115]%N = Ok 3 /\
  time2seconds_text sample_decimal 4300 [65301; 115]%N = Ok 5 /\
  time2seconds_text sample_decimal 4300 [53; 2408; 109]%N = Ok 3120 /\
  time2seconds_text sample_decimal 4300 [115]%N = Raise invalid_time_format /\
  time2seconds_text sample_decimal 4300 [45; 53; 115]%N = Raise invalid_time_format.
Proof. repeat split; reflexivity. Qed.

Lemma time2seconds_accepts_exactly_witness :
  latin1_decimal sample_decimal /\
  ((forall v, time2seconds_text sample_decimal 4300 [53; 2408; 109]%N = Ok v <->
      exists ds u, text_duration_token sample_decimal [53; 2408; 109]%N ds u /\
        (4300 = 0 \/ List.length ds <= 4300)%nat /\
        v = text_digits_value sample_decimal ds * unit_code_seconds u) /\
   (forall e, time2seconds_text sample_decimal 4300 [53; 2408; 109]%N = Raise e ->
      e = invalid_time_format)).
Proof.
  split; [exact sample_decimal_latin1|].
  exact (time2seconds_accepts_exactly sample_decimal sample_decimal_latin1 4300
           [53; 2408; 109]%N).
Defined.

Lemma time2seconds_rejects_without_leading_digit_witness :
  is_decimal sample_decimal 45 = false /\
  time2seconds_text sample_decimal 4300 [45; 53; 115]%N = Raise invalid_time_format.
Proof.
  split; [reflexivity|].
  apply (time2seconds_rejects_without_leading_digit sample_decimal 4300 [45; 53; 115]%N).
  reflexivity.
Defined.

